(** * File connector: text extraction, metadata reconciliation, batching

    A shallow embedding of [backend/danswer/connectors/file/connector.py]:
    [_read_files_and_metadata], [_process_file] and
    [LocalFileConnector.load_from_state], with the Python built-ins they rely
    on ([str.strip], [str.join], [str.startswith], [dict.get], truthiness,
    [os.path]) written out, and the libraries they call (the blob store, the
    format parsers, the timestamp parser, the clock) kept as an interface. *)

From Stdlib Require Import ZArith Lia Ascii DecimalString.
From stdpp Require Import base option list strings gmap fin_maps.

Local Open Scope string_scope.
Local Open Scope list_scope.
Local Open Scope Z_scope.

(** ** Python values and built-ins *)

(** A Python [str] is a sequence of code points; the embedding keeps the code
    points below 256, one per [ascii]. *)
Module Py.

(** The values a metadata bag holds ([dict[str, Any]]). *)
#[warnings="-register-all"]
Inductive pyval : Type :=
| PNone
| PBool (b : bool)
| PInt (z : Z)
| PStr (s : string)
| PTime (t : Z)
| PList (l : list pyval).

Abbreviation dict := (gmap string pyval).

(** [bool(v)]: what [if v], [v or w] and [x if v else y] test. A
    [datetime] is always true. *)
Definition truthy (v : pyval) : bool :=
  match v with
  | PNone => false
  | PBool b => b
  | PInt z => negb (z =? 0)
  | PStr s => negb (String.eqb s "")
  | PTime _ => true
  | PList l => match l with [] => false | _ :: _ => true end
  end.

(** [isinstance(v, str)] *)
Definition is_str (v : pyval) : bool :=
  match v with PStr _ => true | _ => false end.

(** [d.get(k)], with [None] for a missing key. *)
Definition get (d : dict) (k : string) : pyval := default PNone (d !! k).

(** [d.get(k, dflt)] *)
Definition get_or (d : dict) (k : string) (dflt : pyval) : pyval :=
  default dflt (d !! k).

(** [a or b] *)
Definition por (a b : pyval) : pyval := if truthy a then a else b.

(** What [for x in v] enumerates: the items of a list, the characters of a
    string; the other values are not iterable. *)
Definition iter (v : pyval) : option (list pyval) :=
  match v with
  | PList l => Some l
  | PStr s => Some ((λ c, PStr (String c "")) <$> String.list_ascii_of_string s)
  | _ => None
  end.

(** [str.isspace] on one code point below 256: TAB, LF, VT, FF, CR,
    FS, GS, RS, US, SPACE, NEL and NBSP. *)
Definition isspace (c : ascii) : bool :=
  let n := nat_of_ascii c in
  ((9 <=? n) && (n <=? 13) || (28 <=? n) && (n <=? 32)
   || (n =? 133) || (n =? 160))%nat.

Fixpoint lstrip (s : string) : string :=
  match s with
  | "" => ""
  | String c s' => if isspace c then lstrip s' else s
  end.

(** [rstrip] drops the longest all-whitespace suffix. *)
Fixpoint rstrip (s : string) : string :=
  match s with
  | "" => ""
  | String c s' =>
      match rstrip s' with
      | "" => if isspace c then "" else String c ""
      | r => String c r
      end
  end.

(** [s.strip()] *)
Definition strip (s : string) : string := rstrip (lstrip s).

(** [sep.join(l)] *)
Definition join (sep : string) (l : list string) : string :=
  String.concat sep l.

(** [s.startswith(p)] *)
Definition startswith (s p : string) : bool := String.prefix p s.

(** [s.endswith(p)] *)
Definition endswith (s p : string) : bool :=
  String.prefix (String.rev p) (String.rev s).

(** [str(n)] for a non-negative [int] *)
Definition str_of_nat (n : nat) : string :=
  NilZero.string_of_uint (Nat.to_uint n).

(** The first and the last character of a string. *)
Definition first_char (s : string) : option ascii :=
  match s with "" => None | String c _ => Some c end.

Fixpoint last_char (s : string) : option ascii :=
  match s with
  | "" => None
  | String c "" => Some c
  | String _ s' => last_char s'
  end.

(** No whitespace at either end. *)
Definition trimmed (s : string) : Prop :=
  (∀ c, first_char s = Some c → isspace c = false)
  ∧ (∀ c, last_char s = Some c → isspace c = false).

End Py.
Export Py.

(** ** [posixpath] *)
Module OsPath.

(** [p.rfind("/") + 1], the start of the last component. *)
Fixpoint split_last (p : string) : string * string :=
  match p with
  | "" => ("", "")
  | String c p' =>
      let '(h, t) := split_last p' in
      if String.eqb h "" then
        if Ascii.eqb c "/" then ("/", t) else ("", String c t)
      else (String c h, t)
  end.

(** [os.path.basename] *)
Definition basename (p : string) : string := (split_last p).2.

Fixpoint all_slashes (s : string) : bool :=
  match s with
  | "" => true
  | String c s' => Ascii.eqb c "/" && all_slashes s'
  end.

Fixpoint rstrip_slashes (s : string) : string :=
  match s with
  | "" => ""
  | String c s' =>
      match rstrip_slashes s' with
      | "" => if Ascii.eqb c "/" then "" else String c ""
      | r => String c r
      end
  end.

(** [os.path.dirname] *)
Definition dirname (p : string) : string :=
  let head := (split_last p).1 in
  if negb (String.eqb head "") && negb (all_slashes head)
  then rstrip_slashes head else head.

(** [os.path.join(a, b)] *)
Definition join (a b : string) : string :=
  if Py.startswith b "/" then b
  else if String.eqb a "" || Py.endswith a "/" then a +:+ b
  else a +:+ "/" +:+ b.

End OsPath.

Example basename_nested : OsPath.basename "a/b/c.txt" = "c.txt".
Proof. reflexivity. Qed.

Example dirname_nested : OsPath.dirname "a/b/c.txt" = "a/b".
Proof. reflexivity. Qed.

Example dirname_root : OsPath.dirname "/c.txt" = "/".
Proof. reflexivity. Qed.

Example join_plain : OsPath.join "a/b" "x/y.md" = "a/b/x/y.md".
Proof. reflexivity. Qed.

Example join_empty_dir : OsPath.join "" "y.md" = "y.md".
Proof. reflexivity. Qed.

Example strip_both : Py.strip (String "010" " a b  ") = "a b".
Proof. reflexivity. Qed.

Example str_of_nat_12 : Py.str_of_nat 12 = "12".
Proof. reflexivity. Qed.

(** ** Exceptions, the clock and generators *)

(** The outcome of a call that may raise; an exception is kept as the name
    of its class. *)
Inductive result (A : Type) : Type :=
| Ok (a : A)
| Raise (e : string).
Arguments Ok {A} a.
Arguments Raise {A} e.

#[global] Instance result_ret : MRet result := λ A a, Ok a.
#[global] Instance result_bind : MBind result := λ A B f m,
  match m with Ok a => f a | Raise e => Raise e end.
#[global] Instance result_fmap : FMap result := λ A B f m,
  match m with Ok a => Ok (f a) | Raise e => Raise e end.

(** The only state the connector touches is the clock: the world is the
    number of readings of [datetime.now] made so far. *)
Definition world : Type := nat.

(** A computation that reads the clock and may raise. *)
Definition M (A : Type) : Type := world → result A * world.

#[global] Instance M_ret : MRet M := λ A a w, (Ok a, w).
#[global] Instance M_bind : MBind M := λ A B f m w,
  match m w with
  | (Ok a, w') => f a w'
  | (Raise e, w') => (Raise e, w')
  end.

Definition lift_result {A} (r : result A) : M A := λ w, (r, w).

(** A generator consumed to its end: the items it yields, and the exception
    that ends it if one does. *)
Definition stream (A : Type) : Type := list A * option string.

(** A generator that reads the clock: the batches it has yielded, how it
    ended, and the clock afterwards. *)
Definition Gen (Y A : Type) : Type := world → list Y * result A * world.

#[global] Instance Gen_ret {Y} : MRet (Gen Y) := λ A a w, ([], Ok a, w).
#[global] Instance Gen_bind {Y} : MBind (Gen Y) := λ A B f m w,
  match m w with
  | (ys, Ok a, w') =>
      match f a w' with (ys', r, w'') => (ys ++ ys', r, w'') end
  | (ys, Raise e, w') => (ys, Raise e, w')
  end.

Definition yield {Y} (y : Y) : Gen Y unit := λ w, ([y], Ok (), w).
Definition gen_raise {Y A} (e : string) : Gen Y A := λ w, ([], Raise e, w).
Definition lift_M {Y A} (m : M A) : Gen Y A := λ w,
  match m w with (r, w') => ([], r, w') end.

(** ** The document model ([danswer.connectors.models]) *)
Module Models.

Record BasicExpertInfo : Type := { display_name : pyval }.

(** [Section(link=..., text=...)] *)
Record Section_ : Type := { link : pyval; text : string }.

(** [DocumentSource]; the connector only uses [FILE]. *)
Inductive DocumentSource : Type := FILE.

Record Document : Type := {
  id : string;
  sections : list Section_;
  source : DocumentSource;
  semantic_identifier : pyval;
  doc_updated_at : pyval;
  primary_owners : option (list BasicExpertInfo);
  secondary_owners : option (list BasicExpertInfo);
  metadata : dict;
}.

End Models.

(** ** What the parsing libraries hand back *)

(** A [pptx] shape; [text] is [None] when the shape has no [text]
    attribute. *)
Record Shape : Type := { shape_text : option string }.
Record Slide : Type := { shapes : list Shape }.

(** An [openpyxl] worksheet: [iter_rows(min_row=1, values_only=True)]. *)
Record Worksheet : Type := { iter_rows : list (list pyval) }.

(** One part of [message.walk()]. Only [multipart/*] and [message/*] parts
    have a payload that is not a string, and their payload is not read. *)
Record Part : Type := { content_type : string; payload : string }.

(** ** The collaborators

    Everything [connector.py] imports: this repository's helpers
    ([danswer.connectors.file.utils], [cross_connector_utils], the file
    store) and the third-party parsers. [IO] is an open binary file. *)
Module Lib.

Class Collaborators (IO : Type) : Type := {
  get_file_ext : string → string;
  check_file_ext_is_valid : string → bool;
  (** [time_str_to_utc]; the datetime is kept as an instant. *)
  time_str_to_utc : pyval → result Z;
  (** The instant the k-th reading of [datetime.now(timezone.utc)] gives. *)
  utc_clock : nat → Z;
  (** [get_default_file_store(db_session).read_file(name, mode="b")] *)
  file_store_read_file : string → result IO;
  (** [load_files_from_zip(content, ignore_dirs=True)], each item with its
      [file_info.filename]. *)
  load_files_from_zip : IO → stream (string * IO * dict);
  read_pdf_file : IO → string → option string → result string;
  docx2txt_process : IO → result string;
  pptx_Presentation : IO → result (list Slide);
  openpyxl_load_workbook : IO → result (list Worksheet);
  (** The built-in [str] on a cell value. *)
  builtin_str : pyval → string;
  detect_encoding : IO → string;
  (** [csv.reader(io.TextIOWrapper(file, encoding=enc))], read to its end. *)
  csv_reader : IO → string → result (list (list string));
  (** [EmailParser().parse(io.TextIOWrapper(file, encoding=enc)).walk()] *)
  email_walk : IO → string → result (list Part);
  (** [zipfile.ZipFile(file).infolist()], each item with what [open] gives. *)
  zipfile_infolist : IO → result (list (string * IO));
  (** [BeautifulSoup(html_file, "html.parser").get_text()] *)
  soup_get_text : IO → result string;
  read_file : IO → string → result (string * dict);
}.

End Lib.
Export Lib.

(** The line feed, and the separators built from it. *)
Definition LF : string := String "010" "".
Definition LFLF : string := LF +:+ LF.

(** ** [connector.py] *)
Section Connector.

Context {IO : Type} {C : Collaborators IO}.

(** An item of [_read_files_and_metadata]: name, open file, metadata. *)
Definition entry : Type := string * IO * dict.

(** [datetime.now(timezone.utc)] *)
Definition datetime_now : M Z := λ w, (Ok (utc_clock w), S w).

(** *** [_read_files_and_metadata] *)

Definition STANDALONE_EXTENSIONS : list string :=
  [".txt"; ".md"; ".mdx"; ".pdf"; ".docx"; ".pptx"; ".xlsx"; ".csv";
   ".eml"; ".epub"].

Definition _read_files_and_metadata (file_name : string) : stream entry :=
  let extension := get_file_ext file_name in
  let metadata : dict := ∅ in
  let directory_path := OsPath.dirname file_name in
  match file_store_read_file file_name with
  | Raise e => ([], Some e)
  | Ok file_content =>
      if String.eqb extension ".zip" then
        let '(items, ending) := load_files_from_zip file_content in
        ((λ '(filename, file, metadata),
            (OsPath.join directory_path filename, file, metadata)) <$> items,
         ending)
      else if bool_decide (extension ∈ STANDALONE_EXTENSIONS) then
        ([(file_name, file_content, metadata)], None)
      else
        (* logger.warning("Skipping file ...") *)
        ([], None)
  end.

(** *** [_process_file]: the text of each format *)

(** Lines 99-102: the header of a slide, then the text of every shape
    that has one, each followed by a line feed. *)
Definition slide_text (slide_number : nat) (slide : Slide) : string :=
  fold_left
    (λ extracted_text shape,
       match shape_text shape with
       | Some t => extracted_text +:+ t +:+ LF
       | None => extracted_text
       end)
    (shapes slide)
    (LF +:+ "Slide " +:+ str_of_nat slide_number +:+ ":" +:+ LF).

Definition pptx_text (slides : list Slide) : string :=
  Py.join LFLF (imap (λ i slide, slide_text (S i) slide) slides).

Definition xlsx_text (worksheets : list Worksheet) : string :=
  Py.join LFLF
    ((λ sheet, Py.join LF
                 ((λ row, Py.join "," (builtin_str <$> row))
                    <$> iter_rows sheet))
       <$> worksheets).

Definition csv_text (rows : list (list string)) : string :=
  Py.join LF (Py.join "," <$> rows).

Definition eml_text (parts : list Part) : string :=
  Py.join LFLF
    (payload <$>
       filter (λ part, Py.startswith (content_type part) "text/plain") parts).

Definition is_html_item (item : string * IO) : bool :=
  Py.endswith item.1 ".xhtml" || Py.endswith item.1 ".html".

Definition epub_text (items : list (string * IO)) : result string :=
  text_content ← mapM (λ item, soup_get_text item.2) (filter is_html_item items);
  mret (Py.join LFLF text_content).

(** Lines 85-145: the dispatch on the extension; the text and the metadata
    the format embeds (only the generic reader has any). *)
Definition extract (extension file_name : string) (file : IO)
    (pdf_pass : option string) : result (string * dict) :=
  if String.eqb extension ".pdf" then
    file_content_raw ← read_pdf_file file file_name pdf_pass;
    mret (file_content_raw, ∅)
  else if String.eqb extension ".docx" then
    file_content_raw ← docx2txt_process file;
    mret (file_content_raw, ∅)
  else if String.eqb extension ".pptx" then
    presentation ← pptx_Presentation file;
    mret (pptx_text presentation, ∅)
  else if String.eqb extension ".xlsx" then
    workbook ← openpyxl_load_workbook file;
    mret (xlsx_text workbook, ∅)
  else if String.eqb extension ".csv" then
    reader ← csv_reader file (detect_encoding file);
    mret (csv_text reader, ∅)
  else if String.eqb extension ".eml" then
    message ← email_walk file (detect_encoding file);
    mret (eml_text message, ∅)
  else if String.eqb extension ".epub" then
    epub ← zipfile_infolist file;
    file_content_raw ← epub_text epub;
    mret (file_content_raw, ∅)
  else
    read_file file (detect_encoding file).

(** *** [_process_file]: the metadata *)

(** Line 146: [{**metadata, **file_metadata} if metadata else
    file_metadata]; [None] and the empty dict are both false. In
    [m1 ∪ m2] the left map wins, as the right operand of [{**a, **b}]. *)
Definition merge_metadata (metadata : option dict) (file_metadata : dict)
    : dict :=
  match metadata with
  | Some metadata =>
      if bool_decide (metadata = ∅) then file_metadata
      else file_metadata ∪ metadata
  | None => file_metadata
  end.

Definition RESERVED_KEYS : list string :=
  ["time_updated"; "doc_updated_at"; "link"; "primary_owners";
   "secondary_owners"; "filename"; "file_display_name"].

(** Lines 159-172 *)
Definition metadata_tags (all_metadata : dict) : dict :=
  filter (λ kv, kv.1 ∉ RESERVED_KEYS) all_metadata.

(** Lines 151-156 *)
Definition final_time_updated (all_metadata : dict) : M pyval :=
  now ← datetime_now;
  let time_updated := Py.get_or all_metadata "time_updated" (PTime now) in
  time_updated ←
    (if Py.is_str time_updated
     then lift_result (PTime <$> time_str_to_utc time_updated)
     else mret time_updated);
  let dt_str := Py.get all_metadata "doc_updated_at" in
  if Py.truthy dt_str
  then lift_result (PTime <$> time_str_to_utc dt_str)
  else mret time_updated.

(** Lines 176-185: [[BasicExpertInfo(display_name=name) for name in
    names] if names else None] *)
Definition owners (names : pyval)
    : result (option (list Models.BasicExpertInfo)) :=
  if Py.truthy names then
    match Py.iter names with
    | Some l => Ok (Some (Models.Build_BasicExpertInfo <$> l))
    | None => Raise "TypeError"
    end
  else Ok None.

(** Lines 187-202: the [Document], its time and owners resolved. The field
    validation of the [Document] model lives outside this file. *)
Definition the_document (file_name file_content_raw : string)
    (all_metadata : dict) (final_time_updated : pyval)
    (p_owners s_owners : option (list Models.BasicExpertInfo))
    : Models.Document :=
  let file_display_name_override := Py.get all_metadata "file_display_name" in
  {| Models.id := "FILE_CONNECTOR__" +:+ file_name;
     Models.sections :=
       [ {| Models.link := Py.get all_metadata "link";
            Models.text := Py.strip file_content_raw |} ];
     Models.source := Models.FILE;
     Models.semantic_identifier :=
       Py.por file_display_name_override (PStr (OsPath.basename file_name));
     Models.doc_updated_at := final_time_updated;
     Models.primary_owners := p_owners;
     Models.secondary_owners := s_owners;
     Models.metadata := metadata_tags all_metadata |}.

(** Lines 146-202, once the text is extracted: the time first, then the
    owners, then the document. *)
Definition make_documents (file_name file_content_raw : string)
    (all_metadata : dict) : M (list Models.Document) :=
  final_time_updated ← final_time_updated all_metadata;
  p_owners ← lift_result (owners (Py.get all_metadata "primary_owners"));
  s_owners ← lift_result (owners (Py.get all_metadata "secondary_owners"));
  mret [the_document file_name file_content_raw all_metadata
          final_time_updated p_owners s_owners].

Definition _process_file (file_name : string) (file : IO)
    (metadata : option dict) (pdf_pass : option string)
    : M (list Models.Document) :=
  let extension := get_file_ext file_name in
  if negb (check_file_ext_is_valid extension) then
    (* logger.warning("Skipping file ...") *)
    mret []
  else
    '(file_content_raw, file_metadata) ←
      lift_result (extract extension file_name file pdf_pass);
    make_documents file_name file_content_raw
                   (merge_metadata metadata file_metadata).

End Connector.

(** *** [LocalFileConnector] *)

(** [file_locations] holds [str(Path(location))] for each location;
    [batch_size] is any Python [int]. *)
Record LocalFileConnector : Type := {
  file_locations : list string;
  batch_size : Z;
  pdf_pass : option string;
}.

(** [__init__], for locations that are already what [str(Path(location))]
    gives; [LocalFileConnector__init__] below takes any location. *)
Definition LocalFileConnector_init (file_locations : list string)
    (batch_size : Z) : LocalFileConnector :=
  {| file_locations := file_locations;
     batch_size := batch_size;
     pdf_pass := None |}.

(** [load_credentials] *)
Definition load_credentials (self : LocalFileConnector)
    (credentials : gmap string string) : LocalFileConnector :=
  {| file_locations := file_locations self;
     batch_size := batch_size self;
     pdf_pass := credentials !! "pdf_password" |}.

(** *** [pathlib]: what [str(Path(location))] gives (lines 211 and 225) *)
Module Pathlib.

(** [s.split("/")] *)
Fixpoint split_slash (s : string) : list string :=
  match s with
  | "" => [""]
  | String c s' =>
      match split_slash s' with
      | [] => [String c ""]
      | piece :: rest =>
          if Ascii.eqb c "/" then "" :: piece :: rest
          else String c piece :: rest
      end
  end.

(** The root of a POSIX path: none, one slash, or two slashes when the
    path starts with exactly two. *)
Definition root (s : string) : string :=
  match s with
  | String c1 s1 =>
      if Ascii.eqb c1 "/" then
        match s1 with
        | String c2 s2 =>
            if Ascii.eqb c2 "/" then
              match s2 with
              | String c3 _ => if Ascii.eqb c3 "/" then "/" else "//"
              | "" => "//"
              end
            else "/"
        | "" => "/"
        end
      else ""
  | "" => ""
  end.

(** The components: the pieces between slashes, without the empty ones and
    without the dots. *)
Definition parts (s : string) : list string :=
  filter (λ piece, piece ≠ "" ∧ piece ≠ ".") (split_slash s).

(** [str(PurePosixPath(s))] *)
Definition str_of_path (s : string) : string :=
  match root s, parts s with
  | "", [] => "."
  | r, ps => r +:+ Py.join "/" ps
  end.

End Pathlib.

(** [__init__] (lines 206-213): each location goes through [Path], and
    [load_from_state] reads it back with [str]. *)
Definition LocalFileConnector__init__ (file_locations : list string)
    (batch_size : Z) : LocalFileConnector :=
  LocalFileConnector_init (Pathlib.str_of_path <$> file_locations) batch_size.

Abbreviation Document := Models.Document.
Abbreviation batch := (list Models.Document).

Section Emitter.

Context {IO : Type} {C : Collaborators IO}.

(** Lines 229-234: the default instant goes into the entry's metadata,
    then the entry is processed. The dict written to is the entry's own:
    [load_files_from_zip] hands out a fresh one, or the descriptor's
    record for that name, which nothing else reads. *)
Definition process_entry (self : LocalFileConnector) (current_datetime : Z)
    (e : entry) : M batch :=
  let '(file_name, file, metadata) := e in
  let metadata :=
    <["time_updated" :=
        Py.get_or metadata "time_updated" (PTime current_datetime)]>
      metadata in
  _process_file file_name file (Some metadata) (pdf_pass self).

(** Lines 228-238: the loop over the entries of one location. *)
Fixpoint for_files (self : LocalFileConnector) (current_datetime : Z)
    (files : list entry) (documents : batch) : Gen batch batch :=
  match files with
  | [] => mret documents
  | e :: files =>
      new ← lift_M (process_entry self current_datetime e);
      let documents := (documents ++ new) in
      documents ←
        (if Z.of_nat (length documents) >=? batch_size self
         then _ ← yield documents; mret []
         else mret documents);
      for_files self current_datetime files documents
  end.

(** Lines 223-238: one location. The entries come from a generator, so an
    exception that ends it is raised after the entries before it have
    been processed. *)
Definition for_location (self : LocalFileConnector) (file_path : string)
    (documents : batch) : Gen batch batch :=
  current_datetime ← lift_M datetime_now;
  let '(files, ending) := _read_files_and_metadata file_path in
  documents ← for_files self current_datetime files documents;
  match ending with
  | Some e => gen_raise e
  | None => mret documents
  end.

(** Line 222: the loop over the locations. *)
Fixpoint for_locations (self : LocalFileConnector)
    (locations : list string) (documents : batch) : Gen batch batch :=
  match locations with
  | [] => mret documents
  | file_path :: locations =>
      documents ← for_location self file_path documents;
      for_locations self locations documents
  end.

(** [load_from_state] *)
Definition load_from_state (self : LocalFileConnector) : Gen batch unit :=
  documents ← for_locations self (file_locations self) [];
  match documents with
  | [] => mret ()
  | _ :: _ => yield documents
  end.

(** *** The documents of a run, without the batching

    What the entries give when processed in the same order against the
    same clock and collected in one list: the reference for "total
    document count and order are preserved regardless of batch size". *)
Fixpoint files_documents (self : LocalFileConnector) (current_datetime : Z)
    (files : list entry) : M batch :=
  match files with
  | [] => mret []
  | e :: files =>
      new ← process_entry self current_datetime e;
      rest ← files_documents self current_datetime files;
      mret (new ++ rest)
  end.

Definition location_documents (self : LocalFileConnector)
    (file_path : string) : M batch :=
  current_datetime ← datetime_now;
  let '(files, ending) := _read_files_and_metadata file_path in
  documents ← files_documents self current_datetime files;
  match ending with
  | Some e => lift_result (Raise e)
  | None => mret documents
  end.

Fixpoint locations_documents (self : LocalFileConnector)
    (locations : list string) : M batch :=
  match locations with
  | [] => mret []
  | file_path :: locations =>
      documents ← location_documents self file_path;
      rest ← locations_documents self locations;
      mret (documents ++ rest)
  end.

Definition produced_documents (self : LocalFileConnector) : M batch :=
  locations_documents self (file_locations self).

(** What a generator has emitted by the time it ends: the batches
    yielded, and the one still pending if it ended normally. *)
Definition pending_of (r : result batch) : batch :=
  match r with Ok documents => documents | Raise _ => [] end.

(** [d] is built from entry [e] by the loop body, the location's instant
    being [current_datetime], at some state of the clock. *)
Definition built_from (self : LocalFileConnector) (current_datetime : Z)
    (e : entry) (d : Document) : Prop :=
  ∃ w ds w', process_entry self current_datetime e w = (Ok ds, w') ∧ d ∈ ds.

(** Neither the caller's metadata of the entry nor what its extractor
    returns has [time_updated] or [doc_updated_at]. *)
Definition supplies_no_time (self : LocalFileConnector) (e : entry) : Prop :=
  let '(file_name, file, metadata) := e in
  metadata !! "time_updated" = None
  ∧ metadata !! "doc_updated_at" = None
  ∧ ∀ raw file_metadata,
      extract (get_file_ext file_name) file_name file (pdf_pass self)
        = Ok (raw, file_metadata) →
      file_metadata !! "time_updated" = None
      ∧ file_metadata !! "doc_updated_at" = None.

(** A batch of exactly [batch_size] documents. *)
Definition full (self : LocalFileConnector) (b : batch) : Prop :=
  Z.of_nat (length b) = batch_size self.

End Emitter.

(** ** A concrete set of collaborators

    Parsed files stand for their bytes, so that the connector can be run on
    explicit inputs. *)
Module Sample.

(** A file, by what its parser reads out of it. *)
#[warnings="-register-all"]
Inductive File : Type :=
| TextFile (body : string) (header : dict)
| PdfFile (body : string)
| DocxFile (body : string)
| Deck (slides : list Slide)
| Workbook (sheets : list Worksheet)
| CsvFile (rows : list (list string))
| Mail (parts : list Part)
| Archive (items : list (string * File * dict))
| Garbage.

Definition lower (c : ascii) : ascii :=
  let n := nat_of_ascii c in
  if ((65 <=? n) && (n <=? 90))%nat then ascii_of_nat (n + 32) else c.

Fixpoint lower_str (s : string) : string :=
  match s with
  | "" => ""
  | String c s' => String (lower c) (lower_str s')
  end.

Fixpoint from_last_dot (s : string) : option string :=
  match s with
  | "" => None
  | String c s' =>
      match from_last_dot s' with
      | Some e => Some e
      | None => if Ascii.eqb c "." then Some s else None
      end
  end.

(** Modelled from the spec: [danswer.connectors.file.utils.get_file_ext]
    is not in the sources; "pure string-suffix extraction
    (lower-cased)". *)
Definition get_file_ext (name : string) : string :=
  lower_str (default "" (from_last_dot (OsPath.basename name))).

(** Modelled from the spec:
    [danswer.connectors.file.utils.check_file_ext_is_valid] is not in the
    sources; the fixed allow-list of section 4.1, [.zip] included. *)
Definition check_file_ext_is_valid (ext : string) : bool :=
  bool_decide (ext ∈ [".txt"; ".md"; ".mdx"; ".pdf"; ".docx"; ".pptx";
                      ".xlsx"; ".csv"; ".eml"; ".epub"; ".zip"]).

(** Modelled from the spec: [time_str_to_utc] is not in the sources;
    "parse(string) -> absolute timestamp, fails with InvalidTimestamp on
    unparseable input". Here a timestamp string is a decimal number of
    seconds. *)
Definition time_str_to_utc (v : pyval) : result Z :=
  match v with
  | PStr s =>
      match NilZero.uint_of_string s with
      | Some u => Ok (Z.of_N (N.of_uint u))
      | None => Raise "InvalidTimestamp"
      end
  | _ => Raise "TypeError"
  end.

Definition builtin_str (v : pyval) : string :=
  match v with
  | PNone => "None"
  | PBool true => "True"
  | PBool false => "False"
  | PInt z => NilZero.string_of_int (Z.to_int z)
  | PStr s => s
  | PTime t => NilZero.string_of_int (Z.to_int t)
  | PList _ => "[...]"
  end.

Definition expect {A} (o : option A) : result A :=
  match o with Some a => Ok a | None => Raise "ParseError" end.

(** The collaborators over a blob store and a clock. *)
Definition collaborators (store : gmap string File) (clock : nat → Z)
    : Collaborators File :=
  {| Lib.get_file_ext := get_file_ext;
     Lib.check_file_ext_is_valid := check_file_ext_is_valid;
     Lib.time_str_to_utc := time_str_to_utc;
     utc_clock := clock;
     file_store_read_file name :=
       match store !! name with
       | Some f => Ok f
       | None => Raise "NotFound"
       end;
     load_files_from_zip f :=
       match f with
       | Archive items => (items, None)
       | _ => ([], Some "BadZipFile")
       end;
     read_pdf_file f _ _ :=
       expect (match f with PdfFile t => Some t | _ => None end);
     docx2txt_process f :=
       expect (match f with DocxFile t => Some t | _ => None end);
     pptx_Presentation f :=
       expect (match f with Deck l => Some l | _ => None end);
     openpyxl_load_workbook f :=
       expect (match f with Workbook l => Some l | _ => None end);
     Lib.builtin_str := builtin_str;
     detect_encoding _ := "utf-8";
     csv_reader f _ :=
       expect (match f with CsvFile l => Some l | _ => None end);
     email_walk f _ :=
       expect (match f with Mail l => Some l | _ => None end);
     zipfile_infolist f :=
       expect (match f with
               | Archive items => Some ((λ it, (it.1.1, it.1.2)) <$> items)
               | _ => None
               end);
     soup_get_text f :=
       expect (match f with TextFile t _ => Some t | _ => None end);
     read_file f _ :=
       expect (match f with TextFile t h => Some (t, h) | _ => None end) |}.

Definition clock0 (k : nat) : Z := 1000 + Z.of_nat k.

(** *** Inputs *)

Definition deck : File :=
  Deck [ {| shapes := [ {| shape_text := Some "Hello" |} ] |};
         {| shapes := [ {| shape_text := None |};
                        {| shape_text := Some "World" |} ] |} ].

Definition mail : File :=
  Mail [ {| content_type := "multipart/mixed"; payload := "" |};
         {| content_type := "text/plain"; payload := "Hi" |};
         {| content_type := "text/html"; payload := "<p>Hi</p>" |};
         {| content_type := "text/plain charset=us-ascii";
            payload := "Bye" |} ].

Definition pack : File :=
  Archive [ ("one.txt", TextFile " first " ∅, ∅);
            ("tool.exe", Garbage, ∅);
            ("two.md", TextFile "second" {[ "topic" := PStr "zips" ]},
              {[ "link" := PStr "http://x" ]}) ].

Definition notes_body : string := LF +:+ " body " +:+ LF.
Definition notes_header : dict :=
  {[ "author" := PStr "header"; "doc_updated_at" := PStr "1700" ]}.
Definition notes : File := TextFile notes_body notes_header.

Definition store : gmap string File :=
  {[ "in/notes.txt" := notes; "in/pack.zip" := pack;
     "in/tool.exe" := Garbage; "in/deck.pptx" := deck;
     "in/mail.eml" := mail ]}.

Definition C0 : Collaborators File := collaborators store clock0.

Definition connector : LocalFileConnector :=
  LocalFileConnector_init
    ["in/notes.txt"; "in/pack.zip"; "in/tool.exe"; "in/deck.pptx";
     "in/mail.eml"] 2.

End Sample.


(** ** The specification's wording

    Four sentences of the specification, as they are written, to be compared
    with what [_process_file] does. *)
Section Wording.

Context {IO : Type} (C : Collaborators IO).

(** "If [doc_updated_at] is present, [updated_at] must equal its parsed
    value regardless of [time_updated]." *)
Definition timestamp_precedence_as_stated : Prop :=
  ∀ (file_name : string) (file : IO) (metadata : option dict)
    (pdf_pass : option string) (w w' : world) (ds : batch) (d : Document)
    (raw : string) (file_metadata : dict) (s : string),
    extract (get_file_ext file_name) file_name file pdf_pass
      = Ok (raw, file_metadata) →
    merge_metadata metadata file_metadata !! "doc_updated_at"
      = Some (PStr s) →
    _process_file file_name file metadata pdf_pass w = (Ok ds, w') →
    d ∈ ds →
    ∃ t, time_str_to_utc (PStr s) = Ok t ∧ Models.doc_updated_at d = PTime t.

(** "The payload of every part whose content type is exactly
    [text/plain], parts joined by a blank line." *)
Definition eml_text_exact (parts : list Part) : string :=
  Py.join LFLF
    (payload <$>
       filter (λ part, String.eqb (content_type part) "text/plain") parts).

Definition eml_exact_as_stated : Prop :=
  ∀ (file_name : string) (file : IO) (pdf_pass : option string)
    (parts : list Part),
    email_walk file (detect_encoding file) = Ok parts →
    extract ".eml" file_name file pdf_pass = Ok (eml_text_exact parts, ∅).

(** "If [primary_owners]/[secondary_owners] are present (lists of plain
    names), wrap each name into an owner-identity record; absent ->
    null, not an empty list." *)
Definition owner_field_as_stated (value : option pyval)
    (field : option (list Models.BasicExpertInfo)) : Prop :=
  match value with
  | Some (PList names) => field = Some (Models.Build_BasicExpertInfo <$> names)
  | None => field = None
  | Some _ => True
  end.

Definition owners_as_stated : Prop :=
  ∀ (file_name : string) (file : IO) (metadata : option dict)
    (pdf_pass : option string) (w w' : world) (ds : batch) (d : Document)
    (raw : string) (file_metadata : dict),
    extract (get_file_ext file_name) file_name file pdf_pass
      = Ok (raw, file_metadata) →
    _process_file file_name file metadata pdf_pass w = (Ok ds, w') →
    d ∈ ds →
    owner_field_as_stated
      (merge_metadata metadata file_metadata !! "primary_owners")
      (Models.primary_owners d)
    ∧ owner_field_as_stated
        (merge_metadata metadata file_metadata !! "secondary_owners")
        (Models.secondary_owners d).

(** The start of the text in the two-slide scenario:
    ["\nSlide 1:\nHello\n\n\nSlide 2:\n"]. *)
Definition pptx_start_as_stated : string :=
  LF +:+ "Slide 1:" +:+ LF +:+ "Hello" +:+ LF +:+ LF +:+ LF
     +:+ "Slide 2:" +:+ LF.

(** The text-bearing shapes of a slide. *)
Definition shape_texts (slide : Slide) : list string :=
  omap shape_text (shapes slide).

(** Each text followed by a line feed. *)
Definition lines (texts : list string) : string :=
  foldr (λ t rest, t +:+ LF +:+ rest) "" texts.

(** The start of the section text in that scenario, as the code gives
    it. *)
Definition pptx_start : string :=
  "Slide 1:" +:+ LF +:+ "Hello" +:+ LF +:+ LF +:+ LF +:+ LF +:+ "Slide 2:".

Definition pptx_scenario_as_stated : Prop :=
  ∀ (file_name : string) (file : IO) (metadata : option dict)
    (pdf_pass : option string) (w w' : world) (ds : batch) (d : Document)
    (sec : Models.Section_) (slide1 slide2 : Slide),
    get_file_ext file_name = ".pptx" →
    pptx_Presentation file = Ok [slide1; slide2] →
    shape_texts slide1 = ["Hello"] →
    _process_file file_name file metadata pdf_pass w = (Ok ds, w') →
    d ∈ ds → sec ∈ Models.sections d →
    Py.startswith (Models.text sec) pptx_start_as_stated = true.

End Wording.

(** ** The script at the end of the file *)

(** [c in s] *)
Fixpoint has_char (c : ascii) (s : string) : bool :=
  match s with
  | "" => false
  | String x s' => Ascii.eqb x c || has_char c s'
  end.

(** Every character of [s] is whitespace ([s] may be empty). *)
Fixpoint all_space (s : string) : bool :=
  match s with
  | "" => true
  | String x s' => Py.isspace x && all_space s'
  end.

Section Script.

Context {IO : Type} {C : Collaborators IO}.

(** [next(g)] on a fresh generator: it runs to its first [yield] and hands
    that batch over; what the generator would do afterwards does not
    happen. Without a [yield], the exception that ends the generator comes
    out, or [StopIteration] when it just returns. *)
Definition next_batch {A} (g : Gen batch A) (w : world) : result batch :=
  match g w with
  | (b :: _, _, _) => Ok b
  | ([], Raise e, _) => Raise e
  | ([], Ok _, _) => Raise "StopIteration"
  end.

(** Lines 244-249, up to the [print]: the batch that is printed.
    [str_of_Path] is [str(Path(...))], [INDEX_BATCH_SIZE] the default of
    [danswer.configs.app_configs], [environ] is [os.environ]. *)
Definition main (str_of_Path : string → string) (INDEX_BATCH_SIZE : Z)
    (environ : gmap string string) (w : world) : result batch :=
  match environ !! "TEST_FILE" with
  | None => Raise "KeyError"
  | Some test_file =>
      let connector :=
        LocalFileConnector_init [str_of_Path test_file] INDEX_BATCH_SIZE in
      match environ !! "PDF_PASSWORD" with
      | None => Raise "KeyError"
      | Some pdf_password =>
          let connector :=
            load_credentials connector {[ "pdf_password" := pdf_password ]} in
          let document_batches := load_from_state connector in
          next_batch document_batches w
      end
  end.

End Script.

(** ** Further inputs *)
Module Cases.

(** A text file whose header has a [time_updated] that does not parse. *)
Definition undated : Sample.File :=
  Sample.TextFile "text" {[ "time_updated" := PStr "soon" ]}.

(** Caller metadata with an empty [doc_updated_at]. *)
Definition undated_caller : dict :=
  {[ "doc_updated_at" := PStr ""; "time_updated" := PStr "42" ]}.

Definition blank_date : dict := {[ "doc_updated_at" := PStr "" ]}.




Definition caller : dict :=
  {[ "author" := PStr "caller";
     "link" := PStr "http://caller";
     "file_display_name" := PStr "From the caller";
     "primary_owners" := PList [PStr "carl"];
     "secondary_owners" := PList [PStr "cleo"];
     "time_updated" := PTime 5;
     "team" := PStr "docs" ]}.

(** A text file of blank lines. *)
Definition blank : Sample.File :=
  Sample.TextFile (LF +:+ "  " +:+ LF) ∅.

(** A PDF, by the text its reader gives. *)
Definition report : Sample.File := Sample.PdfFile " Annual report ".

(** An e-book: two pages, a style sheet, a cover that is not text. *)
Definition book : Sample.File :=
  Sample.Archive
    [ ("ch1.xhtml", Sample.TextFile "One" ∅, ∅);
      ("style.css", Sample.TextFile "p {}" ∅, ∅);
      ("cover.png", Sample.Garbage, ∅);
      ("ch2.html", Sample.TextFile "Two" ∅, ∅) ].

Definition store : gmap string Sample.File :=
  <[ "in/broken.pdf" := Sample.Garbage ]>
    (<[ "in/undated.txt" := undated ]>
       (<[ "pack.zip" := Sample.pack ]> Sample.store)).

Definition C1 : Collaborators Sample.File :=
  Sample.collaborators store Sample.clock0.

(** Three documents, then a file that cannot be parsed. *)
Definition failing : LocalFileConnector :=
  LocalFileConnector_init
    ["in/notes.txt"; "in/pack.zip"; "in/broken.pdf"; "in/deck.pptx"] 2.

Definition environ : gmap string string :=
  {[ "TEST_FILE" := "in/pack.zip"; "PDF_PASSWORD" := "secret" ]}.

Definition environ_missing : gmap string string :=
  {[ "TEST_FILE" := "in/missing.txt"; "PDF_PASSWORD" := "secret" ]}.

Definition environ_unsupported : gmap string string :=
  {[ "TEST_FILE" := "in/tool.exe"; "PDF_PASSWORD" := "secret" ]}.

End Cases.

(** * Properties *)

(** ** Strings *)

Lemma append_cons (x : ascii) (a b : string) :
  String x a +:+ b = String x (a +:+ b).
Proof. reflexivity. Qed.

Lemma append_assoc (a b c : string) : (a +:+ b) +:+ c = a +:+ (b +:+ c).
Proof.
  induction a as [|x a IH]; [done |].
  rewrite !append_cons. by rewrite IH.
Qed.

Lemma append_empty_r (a : string) : a +:+ "" = a.
Proof.
  induction a as [|x a IH]; [done |].
  rewrite append_cons. by rewrite IH.
Qed.

Lemma lstrip_first (s : string) (c : ascii) :
  first_char (lstrip s) = Some c → isspace c = false.
Proof.
  induction s as [|x s IH]; simpl; [done |].
  destruct (isspace x) eqn:Hx; [exact IH |].
  simpl. intros [= <-]. exact Hx.
Qed.

Lemma rstrip_last (s : string) (c : ascii) :
  last_char (rstrip s) = Some c → isspace c = false.
Proof.
  induction s as [|x s IH]; simpl; [done |].
  destruct (rstrip s) as [|y r] eqn:Hr.
  - destruct (isspace x) eqn:Hx; simpl; [done |].
    intros [= <-]. exact Hx.
  - simpl. exact IH.
Qed.

Lemma rstrip_cons (x : ascii) (s : string) :
  rstrip (String x s) =
  match rstrip s with
  | "" => if isspace x then "" else String x ""
  | r => String x r
  end.
Proof. reflexivity. Qed.

Lemma rstrip_keeps_head (x : ascii) (s : string) :
  isspace x = false → ∃ r, rstrip (String x s) = String x r.
Proof.
  intros Hx. simpl. destruct (rstrip s) as [|y r]; [| by eauto].
  rewrite Hx. by eauto.
Qed.

Lemma strip_first (s : string) (c : ascii) :
  first_char (strip s) = Some c → isspace c = false.
Proof.
  unfold strip. destruct (lstrip s) as [|x t] eqn:Hl; [done |].
  assert (Hx : isspace x = false) by (apply (lstrip_first s); by rewrite Hl).
  destruct (rstrip_keeps_head x t Hx) as [r ->]. simpl.
  intros [= <-]. exact Hx.
Qed.

Lemma strip_last (s : string) (c : ascii) :
  last_char (strip s) = Some c → isspace c = false.
Proof. apply rstrip_last. Qed.

(** A prefix that ends in a character that is not whitespace survives
    [rstrip], whatever follows it. *)
Lemma rstrip_app (p t : string) (c : ascii) :
  last_char p = Some c → isspace c = false →
  rstrip (p +:+ t) = p +:+ rstrip t.
Proof.
  induction p as [|x p IH]; [done |].
  intros Hlast Hc. destruct p as [|y p].
  - injection Hlast as ->. rewrite !append_cons. simpl.
    change ("" +:+ t) with t. change ("" +:+ rstrip t) with (rstrip t).
    destruct (rstrip t); [by rewrite Hc | done].
  - specialize (IH Hlast Hc).
    rewrite (append_cons x), (append_cons x), rstrip_cons, IH.
    by rewrite append_cons.
Qed.

Lemma startswith_spec (s p : string) :
  Py.startswith s p = true ↔ ∃ r, s = p +:+ r.
Proof.
  unfold Py.startswith. revert s.
  induction p as [|x p IH]; intros s.
  - destruct s; simpl; split; eauto.
  - destruct s as [|y s]; simpl.
    + split; [done | by intros [r ?]].
    + destruct (Ascii.ascii_dec x y) as [->|Hne].
      * rewrite IH. split; intros [r Hr]; exists r.
        -- rewrite append_cons. congruence.
        -- rewrite append_cons in Hr. congruence.
      * split; [done |]. intros [r Hr]. rewrite append_cons in Hr.
        congruence.
Qed.

Lemma elem_of_concat {A} (x : A) (ls : list (list A)) :
  x ∈ concat ls ↔ ∃ l, l ∈ ls ∧ x ∈ l.
Proof.
  induction ls as [|l ls IH]; simpl.
  - split; [by intros ?%elem_of_nil | by intros (l & ?%elem_of_nil & _)].
  - rewrite elem_of_app, IH. split.
    + intros [?|(l' & ? & ?)]; [exists l | exists l']; split; try done;
        [by left | by right].
    + intros (l' & [->|?]%elem_of_cons & ?); [by left | right; eauto].
Qed.

(** ** The monads *)

Ltac unfold_monad :=
  unfold mbind, mret, fmap, M_bind, M_ret, Gen_bind, Gen_ret, result_bind,
    result_ret, result_fmap, lift_result, lift_M, yield, gen_raise in *.

(** ** [_process_file], step by step *)
Section ProcessFile.

Context {IO : Type} {C : Collaborators IO}.

Lemma final_time_updated_inv (all_metadata : dict) (w w' : world)
    (tu : pyval) :
  final_time_updated all_metadata w = (Ok tu, w') →
  w' = S w ∧
  if Py.truthy (Py.get all_metadata "doc_updated_at")
  then ∃ t, time_str_to_utc (Py.get all_metadata "doc_updated_at") = Ok t
            ∧ tu = PTime t
  else
    let time_updated :=
      Py.get_or all_metadata "time_updated" (PTime (utc_clock w)) in
    if Py.is_str time_updated
    then ∃ t, time_str_to_utc time_updated = Ok t ∧ tu = PTime t
    else tu = time_updated.
Proof.
  unfold final_time_updated, datetime_now. unfold_monad. cbv zeta.
  destruct (Py.is_str (Py.get_or all_metadata "time_updated" _)).
  - destruct (time_str_to_utc (Py.get_or all_metadata "time_updated" _))
      as [t0|e0]; [| done].
    destruct (Py.truthy _).
    + destruct (time_str_to_utc (Py.get all_metadata "doc_updated_at"))
        as [t|e]; [| done].
      intros [= <- <-]. eauto.
    + intros [= <- <-]. eauto.
  - destruct (Py.truthy _).
    + destruct (time_str_to_utc (Py.get all_metadata "doc_updated_at"))
        as [t|e]; [| done].
      intros [= <- <-]. eauto.
    + intros [= <- <-]. eauto.
Qed.

Lemma make_documents_inv (file_name raw : string) (all_metadata : dict)
    (w w' : world) (ds : list Models.Document) :
  make_documents file_name raw all_metadata w = (Ok ds, w') →
  ∃ tu po so,
    final_time_updated all_metadata w = (Ok tu, w')
    ∧ owners (Py.get all_metadata "primary_owners") = Ok po
    ∧ owners (Py.get all_metadata "secondary_owners") = Ok so
    ∧ ds = [the_document file_name raw all_metadata tu po so].
Proof.
  unfold make_documents. unfold_monad.
  destruct (final_time_updated all_metadata w) as [[tu|e] w1]; [| done].
  destruct (owners (Py.get all_metadata "primary_owners")) as [po|e];
    [| done].
  destruct (owners (Py.get all_metadata "secondary_owners")) as [so|e];
    [| done].
  intros [= <- <-]. by exists tu, po, so.
Qed.

Lemma process_file_inv (file_name : string) (file : IO)
    (metadata : option dict) (pdf_pass : option string) (w w' : world)
    (ds : list Models.Document) :
  _process_file file_name file metadata pdf_pass w = (Ok ds, w') →
  (check_file_ext_is_valid (get_file_ext file_name) = false
   ∧ ds = [] ∧ w' = w)
  ∨ (check_file_ext_is_valid (get_file_ext file_name) = true
     ∧ ∃ raw file_metadata,
         extract (get_file_ext file_name) file_name file pdf_pass
           = Ok (raw, file_metadata)
         ∧ make_documents file_name raw
             (merge_metadata metadata file_metadata) w = (Ok ds, w')).
Proof.
  unfold _process_file. cbv zeta.
  destruct (check_file_ext_is_valid (get_file_ext file_name)); simpl.
  - unfold_monad.
    destruct (extract _ _ _ _) as [[raw fmd]|e]; [| done].
    intros H. right. split; [done |]. by exists raw, fmd.
  - unfold_monad. intros [= <- <-]. by left.
Qed.

(** Every document comes from an accepted extension, an extraction that
    succeeded, and times and owners that resolved. *)
Lemma process_file_document (file_name : string) (file : IO)
    (metadata : option dict) (pdf_pass : option string) (w w' : world)
    (ds : list Models.Document) (d : Models.Document) :
  _process_file file_name file metadata pdf_pass w = (Ok ds, w') →
  d ∈ ds →
  ∃ raw file_metadata tu po so,
    check_file_ext_is_valid (get_file_ext file_name) = true
    ∧ extract (get_file_ext file_name) file_name file pdf_pass
        = Ok (raw, file_metadata)
    ∧ final_time_updated (merge_metadata metadata file_metadata) w
        = (Ok tu, w')
    ∧ owners (Py.get (merge_metadata metadata file_metadata)
                     "primary_owners") = Ok po
    ∧ owners (Py.get (merge_metadata metadata file_metadata)
                     "secondary_owners") = Ok so
    ∧ ds = [d]
    ∧ d = the_document file_name raw
            (merge_metadata metadata file_metadata) tu po so.
Proof.
  intros H Hd. apply process_file_inv in H as [(_ & -> & _)|(Hv & raw & fmd & He & Hm)].
  - by apply elem_of_nil in Hd.
  - apply make_documents_inv in Hm as (tu & po & so & Ht & Hp & Hs & ->).
    apply list_elem_of_singleton in Hd as ->.
    by exists raw, fmd, tu, po, so.
Qed.

Lemma process_file_length (file_name : string) (file : IO)
    (metadata : option dict) (pdf_pass : option string) (w w' : world)
    (ds : list Models.Document) :
  _process_file file_name file metadata pdf_pass w = (Ok ds, w') →
  (length ds ≤ 1)%nat.
Proof.
  intros H. apply process_file_inv in H as [(_ & -> & _)|(Hv & raw & fmd & He & Hm)].
  - simpl. lia.
  - apply make_documents_inv in Hm as (tu & po & so & _ & _ & _ & ->).
    simpl. lia.
Qed.

End ProcessFile.

(** ** The loops of [load_from_state] *)
Section Loops.

Context {IO : Type} {C : Collaborators IO}.

Lemma for_files_cons (self : LocalFileConnector) (cd : Z) (e : entry)
    (files : list entry) (documents : batch) (w : world) :
  for_files self cd (e :: files) documents w =
  match process_entry self cd e w with
  | (Raise ex, w1) => ([], Raise ex, w1)
  | (Ok new, w1) =>
      if Z.of_nat (length (documents ++ new)) >=? batch_size self
      then match for_files self cd files [] w1 with
           | (ys, r, w2) => ((documents ++ new) :: ys, r, w2)
           end
      else for_files self cd files (documents ++ new) w1
  end.
Proof.
  simpl. unfold_monad.
  destruct (process_entry self cd e w) as [[new|ex] w1]; [| done].
  destruct (Z.of_nat (length (documents ++ new)) >=? batch_size self);
    simpl.
  - by destruct (for_files self cd files [] w1) as [[ys r] w2].
  - by destruct (for_files self cd files (documents ++ new) w1)
      as [[ys r] w2].
Qed.

Lemma process_entry_length (self : LocalFileConnector) (cd : Z)
    (e : entry) (w w' : world) (ds : batch) :
  process_entry self cd e w = (Ok ds, w') → (length ds ≤ 1)%nat.
Proof.
  destruct e as [[file_name file] metadata]. apply process_file_length.
Qed.

(** *** Where the emitted documents come from *)

Lemma for_files_origin (self : LocalFileConnector) (cd : Z)
    (files : list entry) (documents : batch) (w w' : world)
    (ys : list batch) (r : result batch) (d : Document) :
  for_files self cd files documents w = (ys, r, w') →
  d ∈ concat ys ++ pending_of r →
  d ∈ documents ∨ ∃ e, e ∈ files ∧ built_from self cd e d.
Proof.
  revert documents w ys r.
  induction files as [|e files IH]; intros documents w ys r.
  - intros [= <- <- <-]. simpl. by left.
  - rewrite for_files_cons.
    destruct (process_entry self cd e w) as [[new|ex] w1] eqn:He.
    + assert (Hnew : ∀ x, x ∈ (documents ++ new) →
                x ∈ documents ∨ ∃ e', e' ∈ e :: files ∧ built_from self cd e' x).
      { intros x [?|?]%elem_of_app; [by left | right].
        exists e. split; [by left |]. by exists w, new, w1. }
      destruct (Z.of_nat (length (documents ++ new)) >=? batch_size self).
      * destruct (for_files self cd files [] w1) as [[ys1 r1] w2] eqn:Hf.
        intros [= <- <- <-]. simpl. rewrite <- app_assoc.
        intros [Hd|Hd]%elem_of_app; [by apply Hnew |].
        destruct (IH _ _ _ _ Hf Hd) as [Hd'|(e' & He' & Hb)].
        -- by apply elem_of_nil in Hd'.
        -- right. exists e'. split; [by right | done].
      * intros Hf Hd.
        destruct (IH _ _ _ _ Hf Hd) as [Hd'|(e' & He' & Hb)].
        -- by apply Hnew.
        -- right. exists e'. split; [by right | done].
    + intros [= <- <- <-]. simpl. intros Hd. by apply elem_of_nil in Hd.
Qed.

Lemma for_location_unfold (self : LocalFileConnector) (file_path : string)
    (documents : batch) (w : world) :
  for_location self file_path documents w =
  match for_files self (utc_clock w) (_read_files_and_metadata file_path).1
          documents (S w) with
  | (ys, Ok pending, w') =>
      match (_read_files_and_metadata file_path).2 with
      | Some ex => (ys, Raise ex, w')
      | None => (ys, Ok pending, w')
      end
  | (ys, Raise ex, w') => (ys, Raise ex, w')
  end.
Proof.
  unfold for_location, datetime_now. unfold_monad.
  destruct (_read_files_and_metadata file_path) as [files ending]. simpl.
  destruct (for_files self (utc_clock w) files documents (S w))
    as [[ys [pending|ex]] w']; [| done].
  destruct ending; simpl; by rewrite app_nil_r.
Qed.

Lemma for_location_origin (self : LocalFileConnector) (file_path : string)
    (documents : batch) (w w' : world) (ys : list batch)
    (r : result batch) (d : Document) :
  for_location self file_path documents w = (ys, r, w') →
  d ∈ concat ys ++ pending_of r →
  d ∈ documents
  ∨ ∃ e, e ∈ (_read_files_and_metadata file_path).1
         ∧ built_from self (utc_clock w) e d.
Proof.
  rewrite for_location_unfold.
  destruct (for_files self (utc_clock w) _ documents (S w))
    as [[ys1 [pending|ex]] w1] eqn:Hf.
  - destruct ((_read_files_and_metadata file_path).2).
    + intros [= <- <- <-] Hd. apply (for_files_origin _ _ _ _ _ _ _ _ _ Hf).
      simpl in *. rewrite app_nil_r in Hd. apply elem_of_app. by left.
    + intros [= <- <- <-]. by apply (for_files_origin _ _ _ _ _ _ _ _ _ Hf).
  - intros [= <- <- <-]. by apply (for_files_origin _ _ _ _ _ _ _ _ _ Hf).
Qed.

Lemma for_locations_origin (self : LocalFileConnector)
    (locations : list string) (documents : batch) (w w' : world)
    (ys : list batch) (r : result batch) (d : Document) :
  for_locations self locations documents w = (ys, r, w') →
  d ∈ concat ys ++ pending_of r →
  d ∈ documents ∨ ∃ cd e, built_from self cd e d.
Proof.
  revert documents w ys r.
  induction locations as [|p locations IH]; intros documents w ys r.
  - intros [= <- <- <-]. simpl. by left.
  - simpl. unfold_monad.
    destruct (for_location self p documents w) as [[ys1 [docs1|ex]] w1]
      eqn:Hl.
    + destruct (for_locations self locations docs1 w1) as [[ys2 r2] w2]
        eqn:Hr.
      intros [= <- <- <-]. rewrite concat_app, <- app_assoc.
      intros [Hd|Hd]%elem_of_app.
      * destruct (for_location_origin _ _ _ _ _ _ _ d Hl) as [?|(e & _ & ?)];
          [apply elem_of_app; by left | by left | right; by exists (utc_clock w), e].
      * destruct (IH _ _ _ _ Hr Hd) as [Hd'|?]; [| by right].
        destruct (for_location_origin _ _ _ _ _ _ _ d Hl) as [?|(e & _ & ?)];
          [apply elem_of_app; by right | by left | right; by exists (utc_clock w), e].
    + intros [= <- <- <-] Hd.
      destruct (for_location_origin _ _ _ _ _ _ _ d Hl Hd) as [?|(e & _ & ?)];
        [by left | right; by exists (utc_clock w), e].
Qed.

Lemma load_from_state_unfold (self : LocalFileConnector) (w : world) :
  load_from_state self w =
  match for_locations self (file_locations self) [] w with
  | (ys, Ok [], w') => (ys, Ok (), w')
  | (ys, Ok (d :: ds), w') => (ys ++ [d :: ds], Ok (), w')
  | (ys, Raise ex, w') => (ys, Raise ex, w')
  end.
Proof.
  unfold load_from_state. unfold_monad.
  destruct (for_locations self (file_locations self) [] w)
    as [[ys [[|d ds]|ex]] w']; [| done | done].
  by rewrite app_nil_r.
Qed.

(** Every document of every batch was built by the loop body from some
    entry. *)
Lemma load_from_state_origin (self : LocalFileConnector) (w w' : world)
    (ys : list batch) (r : result unit) (b : batch) (d : Document) :
  load_from_state self w = (ys, r, w') →
  b ∈ ys → d ∈ b → ∃ cd e, built_from self cd e d.
Proof.
  rewrite load_from_state_unfold.
  destruct (for_locations self (file_locations self) [] w)
    as [[ys1 r1] w1] eqn:Hl.
  intros Hrun Hb Hd.
  assert (Hin : d ∈ concat ys1 ++ pending_of r1).
  { destruct r1 as [[|d0 ds0]|ex]; injection Hrun as <- <- <-; simpl.
    - rewrite app_nil_r. apply elem_of_concat. eauto.
    - apply elem_of_app in Hb as [Hb|Hb%list_elem_of_singleton].
      + apply elem_of_app. left. apply elem_of_concat. eauto.
      + subst b. apply elem_of_app. by right.
    - rewrite app_nil_r. apply elem_of_concat. eauto. }
  destruct (for_locations_origin _ _ _ _ _ _ _ d Hl Hin) as [Hd'|?];
    [by apply elem_of_nil in Hd' | done].
Qed.

End Loops.

(** ** The sizes of the batches *)
Section BatchSizes.

Context {IO : Type} {C : Collaborators IO}.

Lemma for_files_sizes (self : LocalFileConnector) (cd : Z)
    (files : list entry) (documents : batch) (w w' : world)
    (ys : list batch) (r : result batch) :
  1 ≤ batch_size self →
  Z.of_nat (length documents) < batch_size self →
  for_files self cd files documents w = (ys, r, w') →
  Forall (full self) ys ∧ Z.of_nat (length (pending_of r)) < batch_size self.
Proof.
  intros HB. revert documents w ys r.
  induction files as [|e files IH]; intros documents w ys r Hlen.
  - intros [= <- <- <-]. by split.
  - rewrite for_files_cons.
    destruct (process_entry self cd e w) as [[new|ex] w1] eqn:He.
    + apply process_entry_length in He.
      destruct (Z.geb_spec (Z.of_nat (length (documents ++ new)))
                  (batch_size self)) as [Hge|Hlt].
      * destruct (for_files self cd files [] w1) as [[ys1 r1] w2] eqn:Hf.
        intros [= <- <- <-].
        destruct (IH [] w1 ys1 r1) as [Hall Hp]; [simpl; lia | done |].
        split; [| done]. constructor; [| done].
        unfold full. rewrite length_app in *. lia.
      * intros Hf. by apply (IH _ _ _ _ Hlt Hf).
    + intros [= <- <- <-]. split; [done | simpl; lia].
Qed.

Lemma for_location_sizes (self : LocalFileConnector) (file_path : string)
    (documents : batch) (w w' : world) (ys : list batch)
    (r : result batch) :
  1 ≤ batch_size self →
  Z.of_nat (length documents) < batch_size self →
  for_location self file_path documents w = (ys, r, w') →
  Forall (full self) ys ∧ Z.of_nat (length (pending_of r)) < batch_size self.
Proof.
  intros HB Hlen. rewrite for_location_unfold.
  destruct (for_files self (utc_clock w) _ documents (S w))
    as [[ys1 r1] w1] eqn:Hf.
  destruct (for_files_sizes _ _ _ _ _ _ _ _ HB Hlen Hf) as [Hall Hp].
  destruct r1 as [pending|ex].
  - destruct ((_read_files_and_metadata file_path).2);
      intros [= <- <- <-]; split; try done. simpl. lia.
  - intros [= <- <- <-]. by split.
Qed.

Lemma for_locations_sizes (self : LocalFileConnector)
    (locations : list string) (documents : batch) (w w' : world)
    (ys : list batch) (r : result batch) :
  1 ≤ batch_size self →
  Z.of_nat (length documents) < batch_size self →
  for_locations self locations documents w = (ys, r, w') →
  Forall (full self) ys ∧ Z.of_nat (length (pending_of r)) < batch_size self.
Proof.
  intros HB. revert documents w ys r.
  induction locations as [|p locations IH]; intros documents w ys r Hlen.
  - intros [= <- <- <-]. by split.
  - simpl. unfold_monad.
    destruct (for_location self p documents w) as [[ys1 r1] w1] eqn:Hl.
    destruct (for_location_sizes _ _ _ _ _ _ _ HB Hlen Hl) as [Hall1 Hp1].
    destruct r1 as [docs1|ex].
    + destruct (for_locations self locations docs1 w1) as [[ys2 r2] w2]
        eqn:Hr.
      intros [= <- <- <-].
      destruct (IH _ _ _ _ Hp1 Hr) as [Hall2 Hp2].
      split; [by apply Forall_app | done].
    + intros [= <- <- <-]. by split.
Qed.

Lemma full_concat_length (self : LocalFileConnector) (ys : list batch) :
  Forall (full self) ys →
  Z.of_nat (length (concat ys)) = Z.of_nat (length ys) * batch_size self.
Proof.
  induction 1 as [|b ys Hb _ IH]; simpl; [lia |].
  rewrite length_app. unfold full in Hb. lia.
Qed.

(** The batches of a run: full ones, then at most one shorter one, which
    is not empty. *)
Lemma load_from_state_shape (self : LocalFileConnector) (w w' : world)
    (ys : list batch) (r : result unit) :
  1 ≤ batch_size self →
  load_from_state self w = (ys, r, w') →
  Forall (full self) ys
  ∨ ∃ fulls last,
      ys = fulls ++ [last] ∧ Forall (full self) fulls
      ∧ 1 ≤ Z.of_nat (length last) < batch_size self.
Proof.
  intros HB. rewrite load_from_state_unfold.
  destruct (for_locations self (file_locations self) [] w)
    as [[ys1 r1] w1] eqn:Hl.
  assert (Hnil : Z.of_nat (length (@nil Document)) < batch_size self)
    by (simpl; lia).
  destruct (for_locations_sizes _ _ _ _ _ _ _ HB Hnil Hl) as [Hall Hp].
  destruct r1 as [[|d ds]|ex]; intros [= <- <- <-]; [by left | | by left].
  right. exists ys1, (d :: ds). split; [done |]. split; [done |].
  simpl in *. lia.
Qed.

End BatchSizes.

(** ** Batching loses no document *)
Section Conservation.

Context {IO : Type} {C : Collaborators IO}.

Lemma for_files_conserves (self : LocalFileConnector) (cd : Z)
    (files : list entry) (documents pending : batch) (w w' : world)
    (ys : list batch) :
  for_files self cd files documents w = (ys, Ok pending, w') →
  ∃ new, files_documents self cd files w = (Ok new, w')
         ∧ concat ys ++ pending = documents ++ new.
Proof.
  revert documents w ys.
  induction files as [|e files IH]; intros documents w ys.
  - intros [= <- <- <-]. exists []. by rewrite app_nil_r.
  - rewrite for_files_cons. simpl files_documents. unfold_monad.
    destruct (process_entry self cd e w) as [[new|ex] w1]; [| done].
    destruct (Z.of_nat (length (documents ++ new)) >=? batch_size self).
    + destruct (for_files self cd files [] w1) as [[ys1 r1] w2] eqn:Hf.
      intros [= <- -> <-].
      destruct (IH _ _ _ Hf) as (rest & -> & Heq).
      exists (new ++ rest). split; [done |].
      simpl. rewrite <- !app_assoc. by rewrite Heq.
    + intros Hf. destruct (IH _ _ _ Hf) as (rest & -> & Heq).
      exists (new ++ rest). split; [done |].
      by rewrite Heq, <- app_assoc.
Qed.

Lemma for_location_conserves (self : LocalFileConnector)
    (file_path : string) (documents pending : batch) (w w' : world)
    (ys : list batch) :
  for_location self file_path documents w = (ys, Ok pending, w') →
  ∃ new, location_documents self file_path w = (Ok new, w')
         ∧ concat ys ++ pending = documents ++ new.
Proof.
  rewrite for_location_unfold.
  unfold location_documents, datetime_now. unfold_monad.
  destruct (_read_files_and_metadata file_path) as [files ending]. simpl.
  destruct (for_files self (utc_clock w) files documents (S w))
    as [[ys1 [pending1|ex]] w1] eqn:Hf; [| done].
  destruct (for_files_conserves _ _ _ _ _ _ _ _ Hf) as (new & -> & Heq).
  destruct ending; [done |]. intros [= <- <- <-]. by exists new.
Qed.

Lemma for_locations_conserves (self : LocalFileConnector)
    (locations : list string) (documents pending : batch) (w w' : world)
    (ys : list batch) :
  for_locations self locations documents w = (ys, Ok pending, w') →
  ∃ new, locations_documents self locations w = (Ok new, w')
         ∧ concat ys ++ pending = documents ++ new.
Proof.
  revert documents w ys.
  induction locations as [|p locations IH]; intros documents w ys.
  - intros [= <- <- <-]. exists []. by rewrite app_nil_r.
  - simpl. unfold_monad.
    destruct (for_location self p documents w) as [[ys1 [docs1|ex]] w1]
      eqn:Hl; [| done].
    destruct (for_locations self locations docs1 w1) as [[ys2 r2] w2]
      eqn:Hr.
    intros [= <- -> <-].
    destruct (for_location_conserves _ _ _ _ _ _ _ Hl) as (new & -> & Heq1).
    destruct (IH _ _ _ Hr) as (rest & -> & Heq2).
    exists (new ++ rest). split; [done |].
    rewrite concat_app, <- app_assoc, Heq2, !app_assoc. by rewrite Heq1.
Qed.

(** A run that ends normally has yielded, in order, exactly the documents
    its entries give. *)
Lemma load_from_state_conserves (self : LocalFileConnector) (w w' : world)
    (ys : list batch) :
  load_from_state self w = (ys, Ok (), w') →
  produced_documents self w = (Ok (concat ys), w').
Proof.
  rewrite load_from_state_unfold. unfold produced_documents.
  destruct (for_locations self (file_locations self) [] w)
    as [[ys1 [pending|ex]] w1] eqn:Hl; [| done].
  destruct (for_locations_conserves _ _ _ _ _ _ _ Hl) as (new & -> & Heq).
  simpl in Heq. subst new.
  destruct pending as [|d ds]; intros [= <- <-].
  - by rewrite app_nil_r.
  - rewrite concat_app. simpl. by rewrite app_nil_r.
Qed.

End Conservation.

(** ** Metadata lookups *)
Section Metadata.

Context {IO : Type} {C : Collaborators IO}.

(** The extractor's value wins wherever it has one, and the caller's
    value is kept elsewhere. *)
Lemma merge_metadata_lookup (metadata : option dict) (file_metadata : dict)
    (k : string) :
  merge_metadata metadata file_metadata !! k =
  match file_metadata !! k with
  | Some v => Some v
  | None => default ∅ metadata !! k
  end.
Proof.
  unfold merge_metadata. destruct metadata as [metadata|]; simpl.
  - case_bool_decide as He.
    + subst metadata. rewrite lookup_empty. by destruct (file_metadata !! k).
    + rewrite lookup_union. destruct (file_metadata !! k), (metadata !! k); done.
  - rewrite lookup_empty. by destruct (file_metadata !! k).
Qed.

Lemma metadata_tags_lookup (all_metadata : dict) (k : string) :
  metadata_tags all_metadata !! k =
  if bool_decide (k ∈ RESERVED_KEYS) then None else all_metadata !! k.
Proof.
  unfold metadata_tags. case_bool_decide as Hk.
  - apply map_lookup_filter_None. right. intros v _. simpl. tauto.
  - destruct (all_metadata !! k) as [v|] eqn:Hv.
    + by apply map_lookup_filter_Some.
    + apply map_lookup_filter_None. by left.
Qed.

Lemma truthy_nonempty_str (s : string) : s ≠ "" → Py.truthy (PStr s) = true.
Proof.
  intros Hs. simpl. destruct (String.eqb_spec s ""); [done | done].
Qed.

Lemma owners_list (names : list pyval) :
  names ≠ [] →
  owners (PList names) = Ok (Some (Models.Build_BasicExpertInfo <$> names)).
Proof. by destruct names. Qed.

End Metadata.

(** * The claims *)
Section Claims.

Context {IO : Type} {C : Collaborators IO}.

(** C1, amended. When the merged metadata holds a string under
    [doc_updated_at], every document [_process_file] produces is dated as
    follows. If the string is not empty, the date is the instant
    [time_str_to_utc] parses out of it, whatever [time_updated] holds. If
    the string is empty, it counts as absent and the date is what
    [time_updated] resolves to: the clock at the call when the key is
    missing, the parsed instant when it holds a string, the value itself
    otherwise. *)
Theorem doc_updated_at_takes_precedence (file_name : string) (file : IO)
    (metadata : option dict) (pdf_pass : option string) (w w' : world)
    (ds : batch) (d : Document) (raw : string) (file_metadata : dict)
    (s : string) :
  extract (get_file_ext file_name) file_name file pdf_pass
    = Ok (raw, file_metadata) →
  merge_metadata metadata file_metadata !! "doc_updated_at"
    = Some (PStr s) →
  _process_file file_name file metadata pdf_pass w = (Ok ds, w') →
  d ∈ ds →
  (s ≠ "" →
   ∃ t, time_str_to_utc (PStr s) = Ok t ∧ Models.doc_updated_at d = PTime t)
  ∧ (s = "" →
     match merge_metadata metadata file_metadata !! "time_updated" with
     | None => Models.doc_updated_at d = PTime (utc_clock w)
     | Some (PStr s') =>
         ∃ t, time_str_to_utc (PStr s') = Ok t
              ∧ Models.doc_updated_at d = PTime t
     | Some v => Models.doc_updated_at d = v
     end).
Proof.
  intros He Hs Hrun Hd.
  destruct (process_file_document _ _ _ _ _ _ _ _ Hrun Hd)
    as (raw' & fmd' & tu & po & so & _ & He' & Ht & _ & _ & _ & ->).
  rewrite He in He'. injection He' as <- <-.
  apply final_time_updated_inv in Ht as [_ Ht].
  unfold Py.get in Ht. rewrite Hs in Ht. simpl default in Ht.
  cbn [the_document Models.doc_updated_at]. split.
  - intros Hne. rewrite (truthy_nonempty_str s Hne) in Ht.
    destruct Ht as (t & Hp & ->). by exists t.
  - intros ->. simpl in Ht. unfold Py.get_or in Ht.
    destruct (merge_metadata metadata file_metadata !! "time_updated")
      as [v|]; simpl in Ht; [| done].
    by destruct v.
Qed.


Lemma process_file_id (file_name : string) (file : IO)
    (metadata : option dict) (pdf_pass : option string) (w w' : world)
    (ds : batch) (d : Document) :
  _process_file file_name file metadata pdf_pass w = (Ok ds, w') →
  d ∈ ds →
  Models.id d = "FILE_CONNECTOR__" +:+ file_name.
Proof.
  intros Hrun Hd.
  by destruct (process_file_document _ _ _ _ _ _ _ _ Hrun Hd)
    as (raw & fmd & tu & po & so & _ & _ & _ & _ & _ & _ & ->).
Qed.

Lemma process_file_text (file_name : string) (file : IO)
    (metadata : option dict) (pdf_pass : option string) (w w' : world)
    (ds : batch) (d : Document) (sec : Models.Section_) :
  _process_file file_name file metadata pdf_pass w = (Ok ds, w') →
  d ∈ ds → sec ∈ Models.sections d →
  ∃ raw file_metadata,
    extract (get_file_ext file_name) file_name file pdf_pass
      = Ok (raw, file_metadata)
    ∧ Models.text sec = Py.strip raw.
Proof.
  intros Hrun Hd Hsec.
  destruct (process_file_document _ _ _ _ _ _ _ _ Hrun Hd)
    as (raw & fmd & tu & po & so & _ & He & _ & _ & _ & _ & ->).
  cbn [the_document Models.sections] in Hsec.
  apply list_elem_of_singleton in Hsec as ->. by exists raw, fmd.
Qed.

Lemma strip_trimmed (s : string) : trimmed (Py.strip s).
Proof. split; intros c; [apply strip_first | apply strip_last]. Qed.

(** C6. The text of every section of every document has no leading and
    no trailing whitespace: of every document [_process_file] returns,
    whatever the format and the input, and so of every document in every
    batch [load_from_state] yields. *)
Theorem section_text_is_trimmed :
  (∀ (file_name : string) (file : IO) (metadata : option dict)
     (pdf_pass : option string) (w w' : world) (ds : batch) (d : Document)
     (sec : Models.Section_),
     _process_file file_name file metadata pdf_pass w = (Ok ds, w') →
     d ∈ ds → sec ∈ Models.sections d → trimmed (Models.text sec))
  ∧ (∀ (self : LocalFileConnector) (w w' : world) (ys : list batch)
       (r : result unit) (b : batch) (d : Document) (sec : Models.Section_),
       load_from_state self w = (ys, r, w') →
       b ∈ ys → d ∈ b → sec ∈ Models.sections d →
       trimmed (Models.text sec)).
Proof.
  assert (H1 : ∀ (file_name : string) (file : IO) (metadata : option dict)
     (pdf_pass : option string) (w w' : world) (ds : batch) (d : Document)
     (sec : Models.Section_),
     _process_file file_name file metadata pdf_pass w = (Ok ds, w') →
     d ∈ ds → sec ∈ Models.sections d → trimmed (Models.text sec)).
  { intros file_name file metadata pdf_pass w w' ds d sec Hrun Hd Hsec.
    destruct (process_file_text _ _ _ _ _ _ _ _ _ Hrun Hd Hsec)
      as (raw & fmd & _ & ->).
    apply strip_trimmed. }
  split; [exact H1 |].
  intros self w w' ys r b d sec Hrun Hb Hd Hsec.
  destruct (load_from_state_origin _ _ _ _ _ _ _ Hrun Hb Hd)
    as (cd & [[file_name file] metadata] & w1 & ds & w2 & Hp & Hin).
  exact (H1 _ _ _ _ _ _ _ _ _ Hp Hin Hsec).
Qed.

(** C8, amended. When the merged metadata holds a non-empty list of names
    under [primary_owners] (resp. [secondary_owners]), the document's
    field is that list with each name wrapped in a [BasicExpertInfo];
    when the key is absent, or holds the empty list, the field is
    [None]. *)
Theorem owner_lists_resolution (file_name : string) (file : IO)
    (metadata : option dict) (pdf_pass : option string) (w w' : world)
    (ds : batch) (d : Document) (raw : string) (file_metadata : dict) :
  extract (get_file_ext file_name) file_name file pdf_pass
    = Ok (raw, file_metadata) →
  _process_file file_name file metadata pdf_pass w = (Ok ds, w') →
  d ∈ ds →
  let all_metadata := merge_metadata metadata file_metadata in
  (∀ names, names ≠ [] →
     all_metadata !! "primary_owners" = Some (PList names) →
     Models.primary_owners d = Some (Models.Build_BasicExpertInfo <$> names))
  ∧ (all_metadata !! "primary_owners" = None
     ∨ all_metadata !! "primary_owners" = Some (PList []) →
     Models.primary_owners d = None)
  ∧ (∀ names, names ≠ [] →
       all_metadata !! "secondary_owners" = Some (PList names) →
       Models.secondary_owners d
         = Some (Models.Build_BasicExpertInfo <$> names))
  ∧ (all_metadata !! "secondary_owners" = None
     ∨ all_metadata !! "secondary_owners" = Some (PList []) →
     Models.secondary_owners d = None).
Proof.
  intros He Hrun Hd all_metadata.
  destruct (process_file_document _ _ _ _ _ _ _ _ Hrun Hd)
    as (raw' & fmd' & tu & po & so & _ & He' & _ & Hp & Hs & _ & ->).
  rewrite He in He'. injection He' as <- <-.
  fold all_metadata in Hp, Hs. unfold Py.get in Hp, Hs.
  cbn [the_document Models.primary_owners Models.secondary_owners].
  repeat split.
  - intros names Hne Hk. rewrite Hk in Hp. simpl default in Hp.
    rewrite (owners_list names Hne) in Hp. congruence.
  - intros [Hk|Hk]; rewrite Hk in Hp; cbv in Hp; congruence.
  - intros names Hne Hk. rewrite Hk in Hs. simpl default in Hs.
    rewrite (owners_list names Hne) in Hs. congruence.
  - intros [Hk|Hk]; rewrite Hk in Hs; cbv in Hs; congruence.
Qed.

(** C4. An entry whose extension is not accepted gives no document and
    no error. [_process_file] returns the empty list for an extension
    [check_file_ext_is_valid] rejects, without touching the clock; a
    stored file that is neither a zip nor of a listed extension yields no
    entry; and the loops go on as if the entry were not there. *)
Theorem unsupported_extension_is_skipped :
  (∀ (file_name : string) (file : IO) (metadata : option dict)
     (pdf_pass : option string) (w : world),
     check_file_ext_is_valid (get_file_ext file_name) = false →
     _process_file file_name file metadata pdf_pass w = (Ok [], w))
  ∧ (∀ (file_name : string) (file_content : IO),
       file_store_read_file file_name = Ok file_content →
       get_file_ext file_name ≠ ".zip" →
       get_file_ext file_name ∉ STANDALONE_EXTENSIONS →
       _read_files_and_metadata file_name = ([], None))
  ∧ (∀ (self : LocalFileConnector) (cd : Z) (file_name : string)
       (file : IO) (metadata : dict) (files : list entry)
       (documents : batch) (w : world),
       check_file_ext_is_valid (get_file_ext file_name) = false →
       Z.of_nat (length documents) < batch_size self →
       for_files self cd ((file_name, file, metadata) :: files) documents w
       = for_files self cd files documents w)
  ∧ (∀ (self : LocalFileConnector) (file_name : string) (file_content : IO)
       (documents : batch) (w : world),
       file_store_read_file file_name = Ok file_content →
       get_file_ext file_name ≠ ".zip" →
       get_file_ext file_name ∉ STANDALONE_EXTENSIONS →
       for_location self file_name documents w = ([], Ok documents, S w)).
Proof.
  assert (H1 : ∀ (file_name : string) (file : IO) (metadata : option dict)
     (pdf_pass : option string) (w : world),
     check_file_ext_is_valid (get_file_ext file_name) = false →
     _process_file file_name file metadata pdf_pass w = (Ok [], w)).
  { intros file_name file metadata pdf_pass w Hv.
    unfold _process_file. cbv zeta. by rewrite Hv. }
  assert (H2 : ∀ (file_name : string) (file_content : IO),
       file_store_read_file file_name = Ok file_content →
       get_file_ext file_name ≠ ".zip" →
       get_file_ext file_name ∉ STANDALONE_EXTENSIONS →
       _read_files_and_metadata file_name = ([], None)).
  { intros file_name file_content Hread Hzip Hext.
    unfold _read_files_and_metadata. cbv zeta. rewrite Hread.
    destruct (String.eqb_spec (get_file_ext file_name) ".zip"); [done |].
    by rewrite bool_decide_eq_false_2. }
  split; [exact H1 |]. split; [exact H2 |]. split.
  - intros self cd file_name file metadata files documents w Hv Hlen.
    etrans; [apply (for_files_cons self cd (file_name, file, metadata)) |].
    unfold process_entry. rewrite (H1 _ _ _ _ _ Hv).
    rewrite app_nil_r.
    destruct (Z.geb_spec (Z.of_nat (length documents)) (batch_size self));
      [lia | done].
  - intros self file_name file_content documents w Hread Hzip Hext.
    rewrite for_location_unfold, (H2 _ _ Hread Hzip Hext). done.
Qed.

(** C7, amended. For an [.eml] entry the extracted text is the payloads,
    joined by a blank line, of the parts of the message whose content type
    starts with [text/plain], in the order of the walk; a part whose
    content type does not start with [text/plain] contributes nothing.
    The section of the document holds that text, stripped. *)
Theorem eml_text_of_plain_parts (file_name : string) (file : IO)
    (pdf_pass : option string) (parts : list Part) :
  get_file_ext file_name = ".eml" →
  email_walk file (detect_encoding file) = Ok parts →
  let selected :=
    filter (λ part, Py.startswith (content_type part) "text/plain") parts in
  extract (get_file_ext file_name) file_name file pdf_pass
    = Ok (Py.join LFLF (payload <$> selected), ∅)
  ∧ (∀ part, part ∈ selected ↔
       part ∈ parts ∧ ∃ rest, content_type part = "text/plain" +:+ rest)
  ∧ (∀ (metadata : option dict) (w w' : world) (ds : batch) (d : Document)
       (sec : Models.Section_),
       _process_file file_name file metadata pdf_pass w = (Ok ds, w') →
       d ∈ ds → sec ∈ Models.sections d →
       Models.text sec = Py.strip (Py.join LFLF (payload <$> selected))).
Proof.
  intros Hext Hwalk selected.
  assert (He : extract (get_file_ext file_name) file_name file pdf_pass
               = Ok (Py.join LFLF (payload <$> selected), ∅)).
  { rewrite Hext. unfold extract. simpl. unfold_monad. by rewrite Hwalk. }
  split; [exact He |]. split.
  - intros part. unfold selected. rewrite list_elem_of_filter.
    rewrite Is_true_true, startswith_spec. tauto.
  - intros metadata w w' ds d sec Hrun Hd Hsec.
    destruct (process_file_text _ _ _ _ _ _ _ _ _ Hrun Hd Hsec)
      as (raw & fmd & He' & ->).
    rewrite He in He'. by injection He' as <- <-.
Qed.

Lemma slide_text_eq (slide_number : nat) (slide : Slide) :
  slide_text slide_number slide =
  (LF +:+ "Slide " +:+ str_of_nat slide_number +:+ ":" +:+ LF)
    +:+ lines (shape_texts slide).
Proof.
  unfold slide_text, shape_texts.
  generalize (LF +:+ "Slide " +:+ str_of_nat slide_number +:+ ":" +:+ LF).
  induction (shapes slide) as [|shape l IH]; intros acc; simpl.
  - by rewrite append_empty_r.
  - destruct (shape_text shape) as [t|]; simpl; [| apply IH].
    rewrite IH. by rewrite !append_assoc.
Qed.

(** C9, amended. For a [.pptx] entry of two slides whose first slide has
    one text-bearing shape, with text [Hello], the extracted text starts
    with a line feed, [Slide 1:], a line feed, [Hello], four line feeds,
    [Slide 2:] and a line feed; the section text, which is stripped,
    starts with [Slide 1:], a line feed, [Hello], four line feeds and
    [Slide 2:]. *)
Theorem pptx_two_slides_text (file_name : string) (file : IO)
    (metadata : option dict) (pdf_pass : option string) (w w' : world)
    (ds : batch) (d : Document) (sec : Models.Section_)
    (slide1 slide2 : Slide) :
  get_file_ext file_name = ".pptx" →
  pptx_Presentation file = Ok [slide1; slide2] →
  shape_texts slide1 = ["Hello"] →
  _process_file file_name file metadata pdf_pass w = (Ok ds, w') →
  d ∈ ds → sec ∈ Models.sections d →
  extract (get_file_ext file_name) file_name file pdf_pass
    = Ok (LF +:+ pptx_start +:+ LF +:+ lines (shape_texts slide2), ∅)
  ∧ ∃ rest, Models.text sec = pptx_start +:+ rest.
Proof.
  intros Hext Hdeck Hhello Hrun Hd Hsec.
  assert (He : extract (get_file_ext file_name) file_name file pdf_pass
    = Ok (LF +:+ pptx_start +:+ LF +:+ lines (shape_texts slide2), ∅)).
  { rewrite Hext. unfold extract. simpl. unfold_monad. rewrite Hdeck.
    do 2 f_equal. unfold pptx_text. simpl imap. unfold Py.join.
    simpl String.concat. rewrite !slide_text_eq, Hhello.
    generalize (lines (shape_texts slide2)). intros tail.
    vm_compute. reflexivity. }
  split; [exact He |].
  destruct (process_file_text _ _ _ _ _ _ _ _ _ Hrun Hd Hsec)
    as (raw & fmd & He' & ->).
  rewrite He in He'. injection He' as <- <-.
  exists (Py.rstrip (LF +:+ lines (shape_texts slide2))).
  unfold Py.strip.
  assert (Hl : Py.lstrip (LF +:+ pptx_start +:+ LF +:+ lines (shape_texts slide2))
               = pptx_start +:+ LF +:+ lines (shape_texts slide2)).
  { generalize (lines (shape_texts slide2)). intros tail.
    vm_compute. reflexivity. }
  rewrite Hl. by apply (rstrip_app _ _ ":"%char).
Qed.

(** C3. With a batch size of at least one, a run that emits [N]
    documents yields [ceil(N / batch_size)] batches; every batch but the
    last holds exactly [batch_size] documents, and every batch, the last
    included, holds between one and [batch_size]: no batch is empty. When
    the run ends normally, the documents emitted are all the documents
    its entries give, in order. *)
Theorem batches_have_batch_size (self : LocalFileConnector) (w w' : world)
    (ys : list batch) (r : result unit) :
  1 ≤ batch_size self →
  load_from_state self w = (ys, r, w') →
  let N := Z.of_nat (length (concat ys)) in
  let B := batch_size self in
  Z.of_nat (length ys) = (N + B - 1) / B
  ∧ (∀ (i : nat) (b : batch),
       ys !! i = Some b → (S i < length ys)%nat → Z.of_nat (length b) = B)
  ∧ (∀ b, b ∈ ys → 1 ≤ Z.of_nat (length b) ≤ B)
  ∧ (r = Ok () → produced_documents self w = (Ok (concat ys), w')).
Proof.
  intros HB Hrun N B.
  assert (Hcons : r = Ok () →
            produced_documents self w = (Ok (concat ys), w')).
  { intros ->. by apply load_from_state_conserves. }
  cut (Z.of_nat (length ys) = (N + B - 1) / B
       ∧ (∀ (i : nat) (b : batch),
            ys !! i = Some b → (S i < length ys)%nat →
            Z.of_nat (length b) = B)
       ∧ (∀ b, b ∈ ys → 1 ≤ Z.of_nat (length b) ≤ B)); [tauto |].
  clear Hcons.
  destruct (load_from_state_shape _ _ _ _ _ HB Hrun)
    as [Hall|(fulls & last & -> & Hall & Hlast)].
  - pose proof (full_concat_length _ _ Hall) as HN. fold N B in HN.
    split; [| split].
    + apply (Z.div_unique _ _ _ (B - 1)); lia.
    + intros i b Hi _. rewrite Forall_lookup in Hall. exact (Hall i b Hi).
    + intros b Hb. rewrite Forall_forall in Hall.
      specialize (Hall b Hb). unfold full in Hall. fold B in Hall. lia.
  - pose proof (full_concat_length _ _ Hall) as HN.
    assert (HN' : N = Z.of_nat (length fulls) * B + Z.of_nat (length last)).
    { unfold N. rewrite concat_app, length_app. simpl.
      rewrite app_nil_r. fold B in HN. lia. }
    fold B in Hlast.
    split; [| split].
    + rewrite length_app. simpl.
      apply (Z.div_unique _ _ _ (Z.of_nat (length last) - 1)); lia.
    + intros i b Hi Hlt. rewrite length_app in Hlt. simpl in Hlt.
      rewrite lookup_app_l in Hi by lia.
      rewrite Forall_lookup in Hall. exact (Hall i b Hi).
    + intros b [Hb|Hb%list_elem_of_singleton]%elem_of_app.
      * rewrite Forall_forall in Hall. specialize (Hall b Hb).
        unfold full in Hall. fold B in Hall. lia.
      * subst b. lia.
Qed.

Lemma built_from_default_instant (self : LocalFileConnector) (cd : Z)
    (e : entry) (d : Document) :
  supplies_no_time self e → built_from self cd e d →
  Models.doc_updated_at d = PTime cd.
Proof.
  destruct e as [[file_name file] metadata].
  intros (Htu & Hdu & Hext) (w1 & ds & w2 & Hrun & Hd).
  unfold process_entry in Hrun.
  destruct (process_file_document _ _ _ _ _ _ _ _ Hrun Hd)
    as (raw & fmd & tu & po & so & _ & He & Ht & _ & _ & _ & ->).
  destruct (Hext _ _ He) as [Hftu Hfdu].
  apply final_time_updated_inv in Ht as [_ Ht].
  unfold Py.get, Py.get_or in Ht.
  rewrite !merge_metadata_lookup, Hftu, Hfdu in Ht. simpl default in Ht.
  rewrite lookup_insert_ne in Ht by done.
  rewrite lookup_insert_eq, Hdu, Htu in Ht. simpl in Ht.
  cbn [the_document Models.doc_updated_at]. exact Ht.
Qed.

(** C10. The instant read from the clock when the processing of a
    location begins is the one every entry of that location falls back
    on: whatever the location emits was carried over from before or built
    from one of its entries with that instant, and two documents built
    that way from entries for which neither the caller nor the extractor
    supplies [time_updated] or [doc_updated_at] both carry it, whatever
    the clock showed when each was processed. *)
Theorem location_default_instant_is_shared (self : LocalFileConnector)
    (file_path : string) (documents : batch) (w w' : world)
    (ys : list batch) (r : result batch) :
  for_location self file_path documents w = (ys, r, w') →
  let current_datetime := utc_clock w in
  let files := (_read_files_and_metadata file_path).1 in
  (∀ d, d ∈ concat ys ++ pending_of r →
     d ∈ documents ∨ ∃ e, e ∈ files ∧ built_from self current_datetime e d)
  ∧ (∀ e1 e2 d1 d2,
       e1 ∈ files → e2 ∈ files →
       supplies_no_time self e1 → supplies_no_time self e2 →
       built_from self current_datetime e1 d1 →
       built_from self current_datetime e2 d2 →
       Models.doc_updated_at d1 = PTime current_datetime
       ∧ Models.doc_updated_at d2 = Models.doc_updated_at d1).
Proof.
  intros Hrun current_datetime files. split.
  - intros d Hd. exact (for_location_origin _ _ _ _ _ _ _ d Hrun Hd).
  - intros e1 e2 d1 d2 _ _ Hn1 Hn2 Hb1 Hb2.
    rewrite (built_from_default_instant _ _ _ _ Hn1 Hb1).
    by rewrite (built_from_default_instant _ _ _ _ Hn2 Hb2).
Qed.

End Claims.

(** C5. Every document [_process_file] produces for a file name has the id
    ["FILE_CONNECTOR__"] followed by that name; two runs on the same name,
    whatever their collaborators, clock, metadata and file contents, give
    documents with the same id. *)
Theorem document_id_is_deterministic {IO1 IO2 : Type}
    (C1 : Collaborators IO1) (C2 : Collaborators IO2) (file_name : string)
    (file1 : IO1) (file2 : IO2) (metadata1 metadata2 : option dict)
    (pdf_pass1 pdf_pass2 : option string) (w1 w1' w2 w2' : world)
    (ds1 ds2 : batch) (d1 d2 : Document) :
  _process_file (C := C1) file_name file1 metadata1 pdf_pass1 w1
    = (Ok ds1, w1') →
  d1 ∈ ds1 →
  _process_file (C := C2) file_name file2 metadata2 pdf_pass2 w2
    = (Ok ds2, w2') →
  d2 ∈ ds2 →
  Models.id d1 = "FILE_CONNECTOR__" +:+ file_name
  ∧ Models.id d2 = Models.id d1.
Proof.
  intros Hrun1 Hd1 Hrun2 Hd2.
  rewrite (process_file_id _ _ _ _ _ _ _ _ Hrun1 Hd1).
  by rewrite (process_file_id _ _ _ _ _ _ _ _ Hrun2 Hd2).
Qed.

(** * The claims on explicit inputs *)

Ltac run := vm_compute; reflexivity.

Lemma doc_updated_at_takes_precedence_witness :
  (∃ d,
     _process_file (C := Sample.C0) "in/notes.txt" Sample.notes
       (Some {[ "time_updated" := PStr "5" ]}) None 0%nat = (Ok [d], 1%nat)
     ∧ ∃ t, time_str_to_utc (Collaborators := Sample.C0) (PStr "1700") = Ok t
            ∧ Models.doc_updated_at d = PTime t)
  ∧ (∃ d,
       _process_file (C := Sample.C0) "in/a.txt" (Sample.TextFile "text" ∅)
         (Some Cases.undated_caller) None 0%nat = (Ok [d], 1%nat)
       ∧ ∃ t, time_str_to_utc (Collaborators := Sample.C0) (PStr "42") = Ok t
              ∧ Models.doc_updated_at d = PTime t)
  ∧ (∃ d,
       _process_file (C := Sample.C0) "in/a.txt" (Sample.TextFile "text" ∅)
         (Some Cases.blank_date) None 6%nat = (Ok [d], 7%nat)
       ∧ Models.doc_updated_at d
         = PTime (utc_clock (Collaborators := Sample.C0) 6%nat)).
Proof.
  split; [| split].
  - eexists. split; [run |].
    pose proof (doc_updated_at_takes_precedence (C := Sample.C0)
                  "in/notes.txt" Sample.notes
                  (Some {[ "time_updated" := PStr "5" ]}) None
                  0%nat 1%nat _ _ Sample.notes_body Sample.notes_header
                  "1700"
                  ltac:(run) ltac:(run) ltac:(run) (list_elem_of_here _ _))
      as [H _].
    apply H. discriminate.
  - eexists. split; [run |].
    pose proof (doc_updated_at_takes_precedence (C := Sample.C0)
                  "in/a.txt" (Sample.TextFile "text" ∅)
                  (Some Cases.undated_caller) None 0%nat 1%nat _ _
                  "text" ∅ ""
                  ltac:(run) ltac:(run) ltac:(run) (list_elem_of_here _ _))
      as [_ H].
    specialize (H eq_refl).
    assert (Hk : merge_metadata (Some Cases.undated_caller) ∅
                   !! "time_updated" = Some (PStr "42")) by run.
    rewrite Hk in H. exact H.
  - eexists. split; [run |].
    pose proof (doc_updated_at_takes_precedence (C := Sample.C0)
                  "in/a.txt" (Sample.TextFile "text" ∅)
                  (Some Cases.blank_date) None 6%nat 7%nat _ _ "text" ∅ ""
                  ltac:(run) ltac:(run) ltac:(run) (list_elem_of_here _ _))
      as [_ H].
    specialize (H eq_refl).
    assert (Hk : merge_metadata (Some Cases.blank_date) ∅
                   !! "time_updated" = None) by run.
    rewrite Hk in H. exact H.
Defined.

(** C1 as stated fails on the empty string: with [doc_updated_at] set to
    [""] and [time_updated] to the instant 5, the document is dated 5,
    while [""] parses to no instant. *)
Lemma empty_doc_updated_at_is_ignored :
  (∃ d,
     _process_file (C := Sample.C0) "in/notes.txt"
       (Sample.TextFile "body" ∅)
       (Some {[ "doc_updated_at" := PStr ""; "time_updated" := PTime 5 ]})
       None 0%nat = (Ok [d], 1%nat)
     ∧ Models.doc_updated_at d = PTime 5)
  ∧ time_str_to_utc (Collaborators := Sample.C0) (PStr "")
      = Raise "InvalidTimestamp"
  ∧ ¬ timestamp_precedence_as_stated Sample.C0.
Proof.
  split; [eexists; split; run |]. split; [run |].
  intros H.
  destruct (H "in/notes.txt" (Sample.TextFile "body" ∅)
              (Some {[ "doc_updated_at" := PStr "";
                       "time_updated" := PTime 5 ]})
              None 0%nat 1%nat _ _ "body" ∅ ""
              ltac:(run) ltac:(run) ltac:(run) (list_elem_of_here _ _))
    as (t & Ht & _).
  vm_compute in Ht. discriminate.
Qed.


Lemma batches_have_batch_size_witness :
  ∃ ys w',
    load_from_state (C := Sample.C0) Sample.connector 0%nat = (ys, Ok (), w')
    ∧ length ys = 3%nat
    ∧ length (concat ys) = 5%nat
    ∧ (Z.of_nat (length ys)
         = (Z.of_nat (length (concat ys)) + 2 - 1) / 2
       ∧ (∀ (i : nat) (b : batch),
            ys !! i = Some b → (S i < length ys)%nat →
            Z.of_nat (length b) = 2)
       ∧ (∀ b, b ∈ ys → 1 ≤ Z.of_nat (length b) ≤ 2)
       ∧ (Ok () = Ok () →
          produced_documents (C := Sample.C0) Sample.connector 0%nat
          = (Ok (concat ys), w'))).
Proof.
  eexists. eexists. split; [run |]. split; [reflexivity |].
  split; [reflexivity |].
  apply (batches_have_batch_size (C := Sample.C0) Sample.connector 0%nat
           10%nat _ (Ok ())); [simpl; lia | run].
Defined.

Lemma unsupported_extension_is_skipped_witness :
  _process_file (C := Sample.C0) "in/tool.exe" Sample.Garbage None None 4%nat
    = (Ok [], 4%nat)
  ∧ _read_files_and_metadata (C := Sample.C0) "in/tool.exe" = ([], None)
  ∧ for_files (C := Sample.C0) Sample.connector 1002
      [("in/tool.exe", Sample.Garbage, ∅); ("in/notes.txt", Sample.notes, ∅)]
      [] 3%nat
    = for_files (C := Sample.C0) Sample.connector 1002
        [("in/notes.txt", Sample.notes, ∅)] [] 3%nat
  ∧ for_location (C := Sample.C0) Sample.connector "in/tool.exe" [] 4%nat
    = ([], Ok [], 5%nat).
Proof.
  assert (Hext : Sample.get_file_ext "in/tool.exe" ∉ STANDALONE_EXTENSIONS).
  { vm_compute. intros Hin.
    repeat (apply elem_of_cons in Hin as [Hin|Hin]; [discriminate |]).
    by apply elem_of_nil in Hin. }
  destruct (unsupported_extension_is_skipped (C := Sample.C0))
    as (H1 & H2 & H3 & H4).
  split; [apply H1; run |].
  split; [apply (H2 "in/tool.exe" Sample.Garbage); [run | discriminate | exact Hext] |].
  split; [apply H3; [run | simpl; lia] |].
  apply (H4 Sample.connector "in/tool.exe" Sample.Garbage);
    [run | discriminate | exact Hext].
Defined.

Lemma document_id_is_deterministic_witness :
  ∃ d1 d2,
    _process_file (C := Sample.C0) "in/notes.txt" Sample.notes None None
      0%nat = (Ok [d1], 1%nat)
    ∧ _process_file (C := Sample.collaborators ∅ (λ k, 7 * Z.of_nat k))
        "in/notes.txt" Sample.notes
        (Some {[ "link" := PStr "http://y" ]}) (Some "secret") 3%nat
      = (Ok [d2], 4%nat)
    ∧ Models.id d1 = "FILE_CONNECTOR__in/notes.txt"
    ∧ Models.id d2 = Models.id d1.
Proof.
  eexists. eexists. split; [run |]. split; [run |].
  eapply (document_id_is_deterministic Sample.C0
            (Sample.collaborators ∅ (λ k, 7 * Z.of_nat k)) "in/notes.txt"
            Sample.notes Sample.notes None
            (Some {[ "link" := PStr "http://y" ]}) None (Some "secret")
            0%nat 1%nat 3%nat 4%nat);
    [run | apply list_elem_of_here | run | apply list_elem_of_here].
Defined.

Lemma section_text_is_trimmed_witness :
  ∃ d sec,
    _process_file (C := Sample.C0) "in/notes.txt" Sample.notes None None
      0%nat = (Ok [d], 1%nat)
    ∧ Models.sections d = [sec]
    ∧ Models.text sec = "body"
    ∧ trimmed (Models.text sec).
Proof.
  eexists. eexists. split; [run |]. split; [reflexivity |].
  split; [reflexivity |].
  eapply (proj1 (section_text_is_trimmed (C := Sample.C0)) "in/notes.txt"
            Sample.notes None None 0%nat 1%nat);
    [run | apply list_elem_of_here | apply list_elem_of_here].
Defined.

Lemma eml_text_of_plain_parts_witness :
  extract (C := Sample.C0) ".eml" "in/mail.eml" Sample.mail None
    = Ok ("Hi" +:+ LFLF +:+ "Bye", ∅)
  ∧ ∀ (metadata : option dict) (w w' : world) (ds : batch) (d : Document)
      (sec : Models.Section_),
      _process_file (C := Sample.C0) "in/mail.eml" Sample.mail metadata None w
        = (Ok ds, w') →
      d ∈ ds → sec ∈ Models.sections d →
      Models.text sec = "Hi" +:+ LFLF +:+ "Bye".
Proof.
  destruct (eml_text_of_plain_parts (C := Sample.C0) "in/mail.eml"
              Sample.mail None
              [ {| content_type := "multipart/mixed"; payload := "" |};
                {| content_type := "text/plain"; payload := "Hi" |};
                {| content_type := "text/html"; payload := "<p>Hi</p>" |};
                {| content_type := "text/plain charset=us-ascii";
                   payload := "Bye" |} ]
              ltac:(run) ltac:(run)) as (H1 & _ & H3).
  split; [exact H1 | exact H3].
Defined.

(** C7 as stated fails on a part whose content type starts with
    [text/plain] without being it: the payload is extracted all the
    same. *)
Lemma eml_prefix_part_is_extracted :
  let part := {| content_type := "text/plain charset=us-ascii";
                 payload := "Bye" |} in
  extract (C := Sample.C0) ".eml" "in/mail.eml" (Sample.Mail [part]) None
    = Ok ("Bye", ∅)
  ∧ eml_text_exact [part] = ""
  ∧ ¬ eml_exact_as_stated Sample.C0.
Proof.
  intros part. split; [run |]. split; [run |].
  intros H.
  specialize (H "in/mail.eml" (Sample.Mail [part]) None [part] ltac:(run)).
  vm_compute in H. discriminate.
Qed.

Lemma owner_lists_resolution_witness :
  let metadata : dict :=
    {[ "primary_owners" := PList [PStr "ann"; PStr "bob"];
       "secondary_owners" := PList [] ]} in
  ∃ d,
    _process_file (C := Sample.C0) "in/notes.txt" Sample.notes
      (Some metadata) None 0%nat = (Ok [d], 1%nat)
    ∧ Models.primary_owners d
      = Some [ {| Models.display_name := PStr "ann" |};
               {| Models.display_name := PStr "bob" |} ]
    ∧ Models.secondary_owners d = None.
Proof.
  intros metadata. eexists. split; [run |].
  destruct (owner_lists_resolution (C := Sample.C0) "in/notes.txt"
              Sample.notes (Some metadata) None 0%nat 1%nat _ _
              Sample.notes_body Sample.notes_header
              ltac:(run) ltac:(run) (list_elem_of_here _ _))
    as (Hp & _ & _ & Hs).
  split.
  - apply (Hp [PStr "ann"; PStr "bob"]); [discriminate | run].
  - apply Hs. right. run.
Defined.

(** C8 as stated fails on the empty list: [primary_owners] set to [[]]
    gives the field [None], as when the key is absent, and not the empty
    list. *)
Lemma empty_owner_list_is_dropped :
  (∃ d,
     _process_file (C := Sample.C0) "in/notes.txt" Sample.notes
       (Some {[ "primary_owners" := PList [] ]}) None 0%nat
     = (Ok [d], 1%nat)
     ∧ Models.primary_owners d = None)
  ∧ ¬ owners_as_stated Sample.C0.
Proof.
  split; [eexists; split; run |].
  intros H.
  destruct (H "in/notes.txt" Sample.notes
              (Some {[ "primary_owners" := PList [] ]}) None 0%nat 1%nat
              _ _ Sample.notes_body Sample.notes_header
              ltac:(run) ltac:(run) (list_elem_of_here _ _)) as [Hp _].
  vm_compute in Hp. discriminate.
Qed.

Lemma pptx_two_slides_text_witness :
  ∃ d sec,
    _process_file (C := Sample.C0) "in/deck.pptx" Sample.deck None None
      0%nat = (Ok [d], 1%nat)
    ∧ Models.sections d = [sec]
    ∧ Models.text sec = pptx_start +:+ LF +:+ "World"
    ∧ extract (C := Sample.C0) ".pptx" "in/deck.pptx" Sample.deck None
      = Ok (LF +:+ pptx_start +:+ LF +:+ "World" +:+ LF, ∅)
    ∧ ∃ rest, Models.text sec = pptx_start +:+ rest.
Proof.
  eexists. eexists. split; [run |]. split; [reflexivity |].
  split; [run |].
  eapply (pptx_two_slides_text (C := Sample.C0) "in/deck.pptx" Sample.deck
            None None 0%nat 1%nat _ _ _
            {| shapes := [ {| shape_text := Some "Hello" |} ] |}
            {| shapes := [ {| shape_text := None |};
                           {| shape_text := Some "World" |} ] |});
    [run | run | run | run | apply list_elem_of_here | apply list_elem_of_here].
Defined.

(** C9 as stated fails in its own scenario: the section text starts with
    [Slide 1:], the leading line feed being stripped, and four line feeds,
    not three, separate [Hello] from [Slide 2:]. *)
Lemma pptx_start_differs :
  (∃ d,
     _process_file (C := Sample.C0) "in/deck.pptx" Sample.deck None None
       0%nat = (Ok [d], 1%nat)
     ∧ (Models.text <$> Models.sections d) = [pptx_start +:+ LF +:+ "World"])
  ∧ Py.startswith (pptx_start +:+ LF +:+ "World") pptx_start_as_stated = false
  ∧ ¬ pptx_scenario_as_stated Sample.C0.
Proof.
  split; [eexists; split; run |]. split; [run |].
  intros H.
  specialize (H "in/deck.pptx" Sample.deck None None 0%nat 1%nat _ _ _
                {| shapes := [ {| shape_text := Some "Hello" |} ] |}
                {| shapes := [ {| shape_text := None |};
                               {| shape_text := Some "World" |} ] |}
                ltac:(run) ltac:(run) ltac:(run) ltac:(run)
                (list_elem_of_here _ _) (list_elem_of_here _ _)).
  vm_compute in H. discriminate.
Qed.

Lemma location_default_instant_is_shared_witness :
  ∃ d1 d2 ys w',
    for_location (C := Sample.C0) Sample.connector "in/pack.zip" [] 2%nat
      = (ys, Ok [], w')
    ∧ ys = [[d1; d2]]
    ∧ Models.doc_updated_at d1 = PTime 1002
    ∧ Models.doc_updated_at d2 = Models.doc_updated_at d1.
Proof.
  eexists. eexists. eexists. eexists. split; [run |]. split; [reflexivity |].
  destruct (location_default_instant_is_shared (C := Sample.C0)
              Sample.connector "in/pack.zip" [] 2%nat _ _ _ ltac:(run))
    as [_ H].
  apply (H ("in/one.txt", Sample.TextFile " first " ∅, ∅)
           ("in/two.md",
            Sample.TextFile "second" {[ "topic" := PStr "zips" ]},
            {[ "link" := PStr "http://x" ]})).
  - vm_compute. apply list_elem_of_here.
  - vm_compute. do 2 apply list_elem_of_further. apply list_elem_of_here.
  - split; [run |]. split; [run |]. intros raw fmd He.
    vm_compute in He. injection He as <- <-. split; run.
  - split; [run |]. split; [run |]. intros raw fmd He.
    vm_compute in He. injection He as <- <-. split; run.
  - exists 3%nat. eexists. eexists. split; [run | apply list_elem_of_here].
  - exists 5%nat. eexists. eexists. split; [run | apply list_elem_of_here].
Defined.

(** * Further properties *)

(** ** Strings and paths *)

Lemma rev_app_append (s acc : string) :
  String.rev_app s acc = String.rev s +:+ acc.
Proof.
  unfold String.rev. revert acc.
  induction s as [|x s IH]; intros acc; [done |].
  simpl. rewrite (IH (String x acc)), (IH (String x "")).
  by rewrite append_assoc.
Qed.

Lemma rev_cons (x : ascii) (s : string) :
  String.rev (String x s) = String.rev s +:+ String x "".
Proof. unfold String.rev at 1. simpl. apply rev_app_append. Qed.

Lemma rev_append (a b : string) :
  String.rev (a +:+ b) = String.rev b +:+ String.rev a.
Proof.
  induction a as [|x a IH].
  - change ("" +:+ b) with b. change (String.rev "") with "".
    by rewrite append_empty_r.
  - rewrite append_cons, !rev_cons, IH. by rewrite append_assoc.
Qed.

Lemma rev_involutive (s : string) : String.rev (String.rev s) = s.
Proof.
  induction s as [|x s IH]; [done |].
  rewrite rev_cons, rev_append, IH. done.
Qed.

(** [endswith] is the test for a suffix. *)
Lemma endswith_spec (s p : string) :
  Py.endswith s p = true ↔ ∃ r, s = r +:+ p.
Proof.
  unfold Py.endswith.
  change (String.prefix (String.rev p) (String.rev s))
    with (Py.startswith (String.rev s) (String.rev p)).
  rewrite startswith_spec. split.
  - intros [r Hr]. exists (String.rev r).
    rewrite <- (rev_involutive s), Hr, rev_append. by rewrite rev_involutive.
  - intros [r ->]. exists (String.rev r). apply rev_append.
Qed.

Lemma split_last_no_slash (p : string) :
  has_char "/" p = false → OsPath.split_last p = ("", p).
Proof.
  induction p as [|c p IH]; [done |].
  simpl. destruct (Ascii.eqb_spec c "/") as [->|Hc]; [done |].
  simpl. intros Hp. by rewrite (IH Hp).
Qed.

Lemma split_last_slash (p : string) :
  has_char "/" p = true → (OsPath.split_last p).1 ≠ "".
Proof.
  induction p as [|c p IH]; [done |].
  simpl. destruct (OsPath.split_last p) as [h t] eqn:Hs.
  destruct (String.eqb_spec h "") as [->|Hh]; [| done].
  destruct (Ascii.eqb_spec c "/") as [->|Hc]; [done |].
  simpl. intros Hp. by destruct (IH Hp).
Qed.

(** The head and the tail [split_last] cuts a path into make up the path. *)
Lemma split_last_recompose (p : string) :
  (OsPath.split_last p).1 +:+ (OsPath.split_last p).2 = p.
Proof.
  induction p as [|c p IH]; [done |].
  simpl. destruct (OsPath.split_last p) as [h t]. simpl in IH.
  destruct (String.eqb_spec h "") as [->|Hh].
  - change ("" +:+ t) with t in IH. subst t.
    by destruct (Ascii.eqb_spec c "/") as [->|Hc].
  - simpl. by rewrite append_cons, IH.
Qed.

Lemma split_last_append (x y : string) :
  OsPath.split_last (x +:+ y) =
  if has_char "/" y
  then (x +:+ (OsPath.split_last y).1, (OsPath.split_last y).2)
  else ((OsPath.split_last x).1, (OsPath.split_last x).2 +:+ y).
Proof.
  induction x as [|c x IH].
  - change ("" +:+ y) with y. destruct (has_char "/" y) eqn:Hy.
    + by destruct (OsPath.split_last y).
    + by rewrite (split_last_no_slash y Hy).
  - rewrite append_cons. simpl OsPath.split_last at 1. rewrite IH.
    destruct (has_char "/" y) eqn:Hy.
    + pose proof (split_last_slash y Hy) as Hne.
      destruct (OsPath.split_last y) as [hy ty]. simpl in *.
      destruct (String.eqb_spec (x +:+ hy) "") as [He|_];
        [| by rewrite append_cons].
      destruct x; [by change ("" +:+ hy) with hy in He |
                   by rewrite append_cons in He].
    + simpl. destruct (OsPath.split_last x) as [hx tx]. simpl.
      destruct (String.eqb_spec hx ""); [| done].
      destruct (Ascii.eqb c "/"); [done |]. simpl. by rewrite append_cons.
Qed.

Lemma basename_no_slash (p : string) :
  has_char "/" (OsPath.basename p) = false.
Proof.
  unfold OsPath.basename. induction p as [|c p IH]; [done |].
  simpl. destruct (OsPath.split_last p) as [h t]. simpl in IH.
  destruct (String.eqb_spec h "") as [->|Hh]; [| done].
  destruct (Ascii.eqb_spec c "/") as [->|Hc]; [done |].
  simpl. rewrite IH. by destruct (Ascii.eqb_spec c "/").
Qed.

Lemma basename_trailing_slash (a : string) :
  Py.endswith a "/" = true → OsPath.basename a = "".
Proof.
  intros [r ->]%endswith_spec. unfold OsPath.basename.
  by rewrite split_last_append.
Qed.

Lemma basename_join (a b : string) :
  OsPath.basename (OsPath.join a b) = OsPath.basename b.
Proof.
  unfold OsPath.join.
  destruct (Py.startswith b "/"); [done |].
  assert (Hb : has_char "/" b = false → OsPath.basename b = b).
  { intros Hb. unfold OsPath.basename. by rewrite split_last_no_slash. }
  destruct (String.eqb_spec a "") as [->|Ha]; simpl.
  - done.
  - destruct (Py.endswith a "/") eqn:He.
    + unfold OsPath.basename at 1. rewrite split_last_append.
      destruct (has_char "/" b) eqn:Hc; [done |].
      simpl. fold (OsPath.basename a).
      rewrite (basename_trailing_slash a He). by rewrite Hb.
    + unfold OsPath.basename at 1. rewrite split_last_append.
      change ("/" +:+ b) with (String "/" b). simpl has_char. simpl.
      unfold OsPath.basename.
      destruct (OsPath.split_last b) as [h t]. by destruct (String.eqb h "").
Qed.

Lemma join_empty (b : string) : OsPath.join "" b = b.
Proof. unfold OsPath.join. by destruct (Py.startswith b "/"). Qed.

Lemma dirname_no_slash (p : string) :
  has_char "/" p = false → OsPath.dirname p = "".
Proof.
  intros Hp. unfold OsPath.dirname. by rewrite (split_last_no_slash p Hp).
Qed.

Example str_of_path_collapses :
  Pathlib.str_of_path "./in//notes.txt" = "in/notes.txt".
Proof. reflexivity. Qed.

Example str_of_path_trailing : Pathlib.str_of_path "/in/docs/" = "/in/docs".
Proof. reflexivity. Qed.

Example str_of_path_two_slashes : Pathlib.str_of_path "//in/a" = "//in/a".
Proof. reflexivity. Qed.

Example str_of_path_three_slashes : Pathlib.str_of_path "///in/a" = "/in/a".
Proof. reflexivity. Qed.

Example str_of_path_empty : Pathlib.str_of_path "" = ".".
Proof. reflexivity. Qed.

Example str_of_path_keeps_dotdot :
  Pathlib.str_of_path "in/../a.txt" = "in/../a.txt".
Proof. reflexivity. Qed.

(** On locations that [Path] leaves as they are, [__init__] stores the
    strings given. *)
Lemma init_of_normal_locations (file_locations : list string)
    (batch_size : Z) :
  Forall (λ location, Pathlib.str_of_path location = location)
    file_locations →
  LocalFileConnector__init__ file_locations batch_size
  = LocalFileConnector_init file_locations batch_size.
Proof.
  intros Hn. unfold LocalFileConnector__init__. f_equal.
  induction Hn as [|location locations Hl _ IH]; [done |].
  rewrite fmap_cons. by f_equal.
Qed.

(** ** More on [_process_file] *)
Section MoreProcessFile.

Context {IO : Type} {C : Collaborators IO}.

Lemma process_file_accepted (file_name : string) (file : IO)
    (metadata : option dict) (pdf_pass : option string) (w : world) :
  check_file_ext_is_valid (get_file_ext file_name) = true →
  _process_file file_name file metadata pdf_pass w =
  match extract (get_file_ext file_name) file_name file pdf_pass with
  | Ok (raw, file_metadata) =>
      make_documents file_name raw (merge_metadata metadata file_metadata) w
  | Raise e => (Raise e, w)
  end.
Proof.
  intros Hv. unfold _process_file. cbv zeta. rewrite Hv. simpl.
  unfold_monad. by destruct (extract _ _ _ _) as [[raw fmd]|e].
Qed.

Lemma make_documents_time_raises (file_name raw : string)
    (all_metadata : dict) (w w' : world) (e : string) :
  final_time_updated all_metadata w = (Raise e, w') →
  make_documents file_name raw all_metadata w = (Raise e, w').
Proof. intros H. unfold make_documents. unfold_monad. by rewrite H. Qed.

(** A call that returns has produced exactly one document and read the
    clock once if the extension is accepted, and has produced nothing and
    left the clock alone if it is not. *)
Theorem one_document_per_accepted_entry (file_name : string) (file : IO)
    (metadata : option dict) (pdf_pass : option string) (w w' : world)
    (ds : batch) :
  _process_file file_name file metadata pdf_pass w = (Ok ds, w') →
  if check_file_ext_is_valid (get_file_ext file_name)
  then (∃ d, ds = [d]) ∧ w' = S w
  else ds = [] ∧ w' = w.
Proof.
  intros Hrun.
  apply process_file_inv in Hrun
    as [(-> & -> & ->)|(-> & raw & fmd & _ & Hm)]; [done |].
  apply make_documents_inv in Hm as (tu & po & so & Ht & _ & _ & ->).
  apply final_time_updated_inv in Ht as [-> _]. split; [eauto | done].
Qed.

(** The tags of a document are the merged metadata without the reserved
    keys: no reserved key is ever a tag, and every other key is one, with
    its value. *)
Theorem tags_are_the_unreserved_metadata (file_name : string) (file : IO)
    (metadata : option dict) (pdf_pass : option string) (w w' : world)
    (ds : batch) (d : Document) (raw : string) (file_metadata : dict)
    (k : string) :
  extract (get_file_ext file_name) file_name file pdf_pass
    = Ok (raw, file_metadata) →
  _process_file file_name file metadata pdf_pass w = (Ok ds, w') →
  d ∈ ds →
  (k ∈ RESERVED_KEYS → Models.metadata d !! k = None)
  ∧ (k ∉ RESERVED_KEYS →
     Models.metadata d !! k = merge_metadata metadata file_metadata !! k).
Proof.
  intros He Hrun Hd.
  destruct (process_file_document _ _ _ _ _ _ _ _ Hrun Hd)
    as (raw' & fmd' & tu & po & so & _ & He' & _ & _ & _ & _ & ->).
  rewrite He in He'. injection He' as <- <-.
  cbn [the_document Models.metadata]. rewrite metadata_tags_lookup.
  split; intros Hk.
  - by rewrite bool_decide_eq_true_2.
  - by rewrite bool_decide_eq_false_2.
Qed.

(** The display name is the [file_display_name] of the merged metadata
    when that is a true value; when the key is missing or holds a false
    value such as the empty string, it is the base name of the file, which
    has no slash in it. *)
Theorem display_name_or_basename (file_name : string) (file : IO)
    (metadata : option dict) (pdf_pass : option string) (w w' : world)
    (ds : batch) (d : Document) (raw : string) (file_metadata : dict) :
  extract (get_file_ext file_name) file_name file pdf_pass
    = Ok (raw, file_metadata) →
  _process_file file_name file metadata pdf_pass w = (Ok ds, w') →
  d ∈ ds →
  let override :=
    Py.get (merge_metadata metadata file_metadata) "file_display_name" in
  (Py.truthy override = true → Models.semantic_identifier d = override)
  ∧ (Py.truthy override = false →
     ∃ name, Models.semantic_identifier d = PStr name
             ∧ name = OsPath.basename file_name
             ∧ has_char "/" name = false).
Proof.
  intros He Hrun Hd override.
  destruct (process_file_document _ _ _ _ _ _ _ _ Hrun Hd)
    as (raw' & fmd' & tu & po & so & _ & He' & _ & _ & _ & _ & ->).
  rewrite He in He'. injection He' as <- <-.
  cbn [the_document Models.semantic_identifier]. fold override.
  unfold Py.por. split; intros Ht; rewrite Ht; [done |].
  exists (OsPath.basename file_name).
  split; [done |]. split; [done | apply basename_no_slash].
Qed.

(** Without a true [doc_updated_at], the date of the document is what
    [time_updated] resolves to: the clock at the call when the key is
    missing, the parsed instant when it holds a string, and the value
    itself otherwise. *)
Theorem time_updated_resolution (file_name : string) (file : IO)
    (metadata : option dict) (pdf_pass : option string) (w w' : world)
    (ds : batch) (d : Document) (raw : string) (file_metadata : dict) :
  extract (get_file_ext file_name) file_name file pdf_pass
    = Ok (raw, file_metadata) →
  _process_file file_name file metadata pdf_pass w = (Ok ds, w') →
  d ∈ ds →
  let all_metadata := merge_metadata metadata file_metadata in
  Py.truthy (Py.get all_metadata "doc_updated_at") = false →
  match all_metadata !! "time_updated" with
  | None => Models.doc_updated_at d = PTime (utc_clock w)
  | Some (PStr s) =>
      ∃ t, time_str_to_utc (PStr s) = Ok t
           ∧ Models.doc_updated_at d = PTime t
  | Some v => Models.doc_updated_at d = v
  end.
Proof.
  intros He Hrun Hd all_metadata Hdt.
  destruct (process_file_document _ _ _ _ _ _ _ _ Hrun Hd)
    as (raw' & fmd' & tu & po & so & _ & He' & Ht & _ & _ & _ & ->).
  rewrite He in He'. injection He' as <- <-.
  apply final_time_updated_inv in Ht as [_ Ht].
  fold all_metadata in Ht. rewrite Hdt in Ht.
  unfold Py.get_or in Ht. cbn [the_document Models.doc_updated_at].
  destruct (all_metadata !! "time_updated") as [v|]; simpl in Ht; [| done].
  by destruct v.
Qed.

(** A [time_updated] string that does not parse makes the call raise, once
    the clock is read, whatever [doc_updated_at] holds. *)
Theorem bad_time_updated_raises (file_name : string) (file : IO)
    (metadata : option dict) (pdf_pass : option string) (w : world)
    (raw : string) (file_metadata : dict) (s e : string) :
  check_file_ext_is_valid (get_file_ext file_name) = true →
  extract (get_file_ext file_name) file_name file pdf_pass
    = Ok (raw, file_metadata) →
  merge_metadata metadata file_metadata !! "time_updated" = Some (PStr s) →
  time_str_to_utc (PStr s) = Raise e →
  _process_file file_name file metadata pdf_pass w = (Raise e, S w).
Proof.
  intros Hv He Hk Hp. rewrite (process_file_accepted _ _ _ _ _ Hv), He.
  apply make_documents_time_raises.
  unfold final_time_updated, datetime_now, Py.get_or. unfold_monad.
  rewrite Hk. simpl. by rewrite Hp.
Qed.

(** A true [doc_updated_at] that does not parse makes the call raise, when
    [time_updated] is not a string. *)
Theorem bad_doc_updated_at_raises (file_name : string) (file : IO)
    (metadata : option dict) (pdf_pass : option string) (w : world)
    (raw : string) (file_metadata : dict) (v : pyval) (e : string) :
  check_file_ext_is_valid (get_file_ext file_name) = true →
  extract (get_file_ext file_name) file_name file pdf_pass
    = Ok (raw, file_metadata) →
  (∀ s, merge_metadata metadata file_metadata !! "time_updated"
        ≠ Some (PStr s)) →
  merge_metadata metadata file_metadata !! "doc_updated_at" = Some v →
  Py.truthy v = true →
  time_str_to_utc v = Raise e →
  _process_file file_name file metadata pdf_pass w = (Raise e, S w).
Proof.
  intros Hv He Hns Hk Ht Hp. rewrite (process_file_accepted _ _ _ _ _ Hv), He.
  apply make_documents_time_raises.
  unfold final_time_updated, datetime_now, Py.get_or, Py.get. unfold_monad.
  cbv zeta. rewrite Hk. change (default PNone (Some v)) with v.
  rewrite Ht, Hp.
  destruct (merge_metadata metadata file_metadata !! "time_updated")
    as [tu|] eqn:Htu; simpl; [| done].
  destruct tu; simpl; try done. by destruct (Hns s).
Qed.

(** An extraction that raises makes the call raise the same exception,
    before the clock is read. *)
Theorem extraction_error_propagates (file_name : string) (file : IO)
    (metadata : option dict) (pdf_pass : option string) (w : world)
    (e : string) :
  check_file_ext_is_valid (get_file_ext file_name) = true →
  extract (get_file_ext file_name) file_name file pdf_pass = Raise e →
  _process_file file_name file metadata pdf_pass w = (Raise e, w).
Proof.
  intros Hv He. by rewrite (process_file_accepted _ _ _ _ _ Hv), He.
Qed.

(** The password is read for PDF files only: for any other extension the
    call does the same whatever the password. *)
Theorem password_only_for_pdf (file_name : string) (file : IO)
    (metadata : option dict) (pdf_pass1 pdf_pass2 : option string)
    (w : world) :
  get_file_ext file_name ≠ ".pdf" →
  _process_file file_name file metadata pdf_pass1 w
  = _process_file file_name file metadata pdf_pass2 w.
Proof.
  intros Hext. unfold _process_file. cbv zeta.
  destruct (check_file_ext_is_valid (get_file_ext file_name)); [| done].
  simpl. unfold extract.
  by destruct (String.eqb_spec (get_file_ext file_name) ".pdf").
Qed.

End MoreProcessFile.

(** ** Owners, sections and the e-book text *)

Lemma lstrip_all_space (s : string) : all_space s = true → Py.lstrip s = "".
Proof.
  induction s as [|x s IH]; [done |].
  simpl. destruct (Py.isspace x); [exact IH | done].
Qed.

Lemma strip_all_space (s : string) : all_space s = true → Py.strip s = "".
Proof. intros Hs. unfold Py.strip. by rewrite (lstrip_all_space s Hs). Qed.

Section MoreExtraction.

Context {IO : Type} {C : Collaborators IO}.

(** An owners value that is a plain string, not a list, gives one owner
    per character of the string. *)
Theorem string_owner_is_split_per_character (file_name : string) (file : IO)
    (metadata : option dict) (pdf_pass : option string) (w w' : world)
    (ds : batch) (d : Document) (raw : string) (file_metadata : dict)
    (s : string) :
  extract (get_file_ext file_name) file_name file pdf_pass
    = Ok (raw, file_metadata) →
  _process_file file_name file metadata pdf_pass w = (Ok ds, w') →
  d ∈ ds →
  s ≠ "" →
  let one_per_character :=
    (λ c, {| Models.display_name := PStr (String c "") |})
      <$> String.list_ascii_of_string s in
  (merge_metadata metadata file_metadata !! "primary_owners" = Some (PStr s) →
   Models.primary_owners d = Some one_per_character)
  ∧ (merge_metadata metadata file_metadata !! "secondary_owners"
       = Some (PStr s) →
     Models.secondary_owners d = Some one_per_character).
Proof.
  intros He Hrun Hd Hne one_per_character.
  destruct (process_file_document _ _ _ _ _ _ _ _ Hrun Hd)
    as (raw' & fmd' & tu & po & so & _ & He' & _ & Hp & Hs & _ & ->).
  rewrite He in He'. injection He' as <- <-.
  cbn [the_document Models.primary_owners Models.secondary_owners].
  assert (Ho : owners (PStr s) = Ok (Some one_per_character)).
  { unfold owners. rewrite (truthy_nonempty_str s Hne). simpl.
    unfold one_per_character. by rewrite <- list_fmap_compose. }
  unfold Py.get in Hp, Hs.
  split; intros Hk; [rewrite Hk in Hp | rewrite Hk in Hs];
    simpl default in *; congruence.
Qed.

(** A true owners value that cannot be iterated over (a number, a
    boolean, a datetime) makes the call raise [TypeError], after the time
    is resolved. *)
Theorem non_iterable_owner_raises (file_name : string) (file : IO)
    (metadata : option dict) (pdf_pass : option string) (w w' : world)
    (raw : string) (file_metadata : dict) (tu v : pyval) :
  check_file_ext_is_valid (get_file_ext file_name) = true →
  extract (get_file_ext file_name) file_name file pdf_pass
    = Ok (raw, file_metadata) →
  final_time_updated (merge_metadata metadata file_metadata) w = (Ok tu, w') →
  merge_metadata metadata file_metadata !! "primary_owners" = Some v →
  Py.truthy v = true →
  Py.iter v = None →
  _process_file file_name file metadata pdf_pass w = (Raise "TypeError", w').
Proof.
  intros Hv He Ht Hk Htr Hit.
  rewrite (process_file_accepted _ _ _ _ _ Hv), He.
  unfold make_documents. unfold_monad. rewrite Ht.
  unfold Py.get. rewrite Hk. change (default PNone (Some v)) with v.
  unfold owners. by rewrite Htr, Hit.
Qed.

(** Every document has exactly one section: its link is the [link] of the
    merged metadata, or [None] without one, and its text is the extracted
    text, stripped. A text of nothing but whitespace still gives a
    document, with the empty text. *)
Theorem exactly_one_section (file_name : string) (file : IO)
    (metadata : option dict) (pdf_pass : option string) (w w' : world)
    (ds : batch) (d : Document) (raw : string) (file_metadata : dict) :
  extract (get_file_ext file_name) file_name file pdf_pass
    = Ok (raw, file_metadata) →
  _process_file file_name file metadata pdf_pass w = (Ok ds, w') →
  d ∈ ds →
  ∃ sec,
    Models.sections d = [sec]
    ∧ Models.link sec
      = default PNone (merge_metadata metadata file_metadata !! "link")
    ∧ Models.text sec = Py.strip raw
    ∧ (all_space raw = true → Models.text sec = "").
Proof.
  intros He Hrun Hd.
  destruct (process_file_document _ _ _ _ _ _ _ _ Hrun Hd)
    as (raw' & fmd' & tu & po & so & _ & He' & _ & _ & _ & _ & ->).
  rewrite He in He'. injection He' as <- <-.
  eexists. split; [reflexivity |]. cbn [Models.link Models.text].
  split; [done |]. split; [done |]. apply strip_all_space.
Qed.

Lemma is_html_item_spec (item : string * IO) :
  is_html_item item = true ↔
  ∃ stem, item.1 = stem +:+ ".xhtml" ∨ item.1 = stem +:+ ".html".
Proof.
  unfold is_html_item. rewrite orb_true_iff, !endswith_spec.
  split.
  - intros [[r Hr]|[r Hr]]; exists r; tauto.
  - intros [r [Hr|Hr]]; [left | right]; by exists r.
Qed.

(** Only the archive members whose name ends in [.xhtml] or [.html] count
    for the text of an e-book: a member with another name changes nothing,
    even one that could not be parsed. *)
Theorem epub_ignores_other_members (before after : list (string * IO))
    (item : string * IO) :
  (∀ stem, item.1 ≠ stem +:+ ".xhtml" ∧ item.1 ≠ stem +:+ ".html") →
  epub_text (before ++ item :: after) = epub_text (before ++ after).
Proof.
  intros Hname.
  assert (Hi : is_html_item item = false).
  { destruct (is_html_item item) eqn:Hi; [| done].
    apply is_html_item_spec in Hi as [stem Hs].
    destruct (Hname stem) as [H1 H2]. by destruct Hs. }
  unfold epub_text. rewrite !filter_app, filter_cons.
  destruct (decide (is_html_item item)) as [H|_]; [| done].
  by rewrite Hi in H.
Qed.

End MoreExtraction.

(** ** More on the loops *)
Section MoreLoops.

Context {IO : Type} {C : Collaborators IO}.

(** A stored file of a listed extension is one entry, under its own name
    and without metadata; its location is processed as that single entry,
    with the instant read when the location begins. *)
Theorem standalone_file_is_one_entry (self : LocalFileConnector)
    (file_name : string) (file_content : IO) (documents : batch)
    (w : world) :
  file_store_read_file file_name = Ok file_content →
  get_file_ext file_name ≠ ".zip" →
  get_file_ext file_name ∈ STANDALONE_EXTENSIONS →
  _read_files_and_metadata file_name = ([(file_name, file_content, ∅)], None)
  ∧ for_location self file_name documents w
    = for_files self (utc_clock w) [(file_name, file_content, ∅)]
        documents (S w).
Proof.
  intros Hread Hzip Hext.
  assert (Hs : _read_files_and_metadata file_name
               = ([(file_name, file_content, ∅)], None)).
  { unfold _read_files_and_metadata. cbv zeta. rewrite Hread.
    destruct (String.eqb_spec (get_file_ext file_name) ".zip"); [done |].
    by rewrite bool_decide_eq_true_2. }
  split; [exact Hs |].
  rewrite for_location_unfold, Hs. cbn [fst snd].
  by destruct (for_files self (utc_clock w) _ documents (S w))
    as [[ys [pending|ex]] w'].
Qed.

(** When the blob store cannot read a location, whatever its extension,
    the location raises that exception once the clock is read: nothing is
    yielded, and the documents pending from earlier locations are never
    emitted. *)
Theorem unreadable_location_aborts (self : LocalFileConnector)
    (file_name : string) (e : string) (documents : batch)
    (locations : list string) (w : world) :
  file_store_read_file file_name = Raise e →
  _read_files_and_metadata file_name = ([], Some e)
  ∧ for_location self file_name documents w = ([], Raise e, S w)
  ∧ for_locations self (file_name :: locations) documents w
    = ([], Raise e, S w).
Proof.
  intros Hread.
  assert (Hs : _read_files_and_metadata file_name = ([], Some e)).
  { unfold _read_files_and_metadata. cbv zeta. by rewrite Hread. }
  assert (Hl : for_location self file_name documents w = ([], Raise e, S w)).
  { by rewrite for_location_unfold, Hs. }
  split; [exact Hs |]. split; [exact Hl |].
  simpl. unfold_monad. by rewrite Hl.
Qed.

(** The entries of a zip are the items [load_files_from_zip] yields, in
    order, each with its file and its metadata, under the name joined to
    the directory of the archive; the exception that ends the expansion,
    if any, ends the entries. The base name of an entry is that of its
    name in the archive, and for an archive stored without a directory the
    entry keeps the name it has in the archive. *)
Theorem zip_entries_are_resolved (file_name : string) (file_content : IO)
    (items : list (string * IO * dict)) (ending : option string) :
  file_store_read_file file_name = Ok file_content →
  get_file_ext file_name = ".zip" →
  load_files_from_zip file_content = (items, ending) →
  let files := (_read_files_and_metadata file_name).1 in
  (_read_files_and_metadata file_name).2 = ending
  ∧ length files = length items
  ∧ ∀ (i : nat) (inner : string) (file : IO) (metadata : dict),
      items !! i = Some (inner, file, metadata) →
      ∃ resolved,
        files !! i = Some (resolved, file, metadata)
        ∧ resolved = OsPath.join (OsPath.dirname file_name) inner
        ∧ OsPath.basename resolved = OsPath.basename inner
        ∧ (has_char "/" file_name = false → resolved = inner).
Proof.
  intros Hread Hext Hzip files.
  assert (Hs : _read_files_and_metadata file_name =
    ((λ '(filename, file, metadata),
        (OsPath.join (OsPath.dirname file_name) filename, file, metadata))
       <$> items, ending)).
  { unfold _read_files_and_metadata. cbv zeta.
    by rewrite Hread, Hext, Hzip. }
  unfold files. rewrite Hs. cbn [fst snd].
  split; [done |]. split; [by rewrite length_fmap |].
  intros i inner file metadata Hi.
  exists (OsPath.join (OsPath.dirname file_name) inner).
  split; [by rewrite list_lookup_fmap, Hi |]. split; [done |].
  split; [apply basename_join |].
  intros Hp. by rewrite (dirname_no_slash _ Hp), join_empty.
Qed.

(** An entry that already has [time_updated] in its metadata is processed
    with its metadata as it is: the instant of the location plays no
    part. *)
Theorem caller_time_updated_is_kept (self : LocalFileConnector)
    (current_datetime : Z) (file_name : string) (file : IO)
    (metadata : dict) (v : pyval) :
  metadata !! "time_updated" = Some v →
  process_entry self current_datetime (file_name, file, metadata)
  = _process_file file_name file (Some metadata) (pdf_pass self).
Proof.
  intros Hk. unfold process_entry, Py.get_or. rewrite Hk.
  change (default (PTime current_datetime) (Some v)) with v.
  by rewrite (insert_id _ _ _ Hk).
Qed.

(** Processing a list of entries in two parts, the second starting from
    the batch the first leaves pending, is processing it in one go. *)
Lemma for_files_app (self : LocalFileConnector) (cd : Z)
    (files1 files2 : list entry) (documents : batch) (w : world) :
  for_files self cd (files1 ++ files2) documents w =
  match for_files self cd files1 documents w with
  | (ys1, Ok pending, w1) =>
      match for_files self cd files2 pending w1 with
      | (ys2, r, w2) => (ys1 ++ ys2, r, w2)
      end
  | (ys1, Raise ex, w1) => (ys1, Raise ex, w1)
  end.
Proof.
  revert documents w. induction files1 as [|e files1 IH]; intros documents w.
  - simpl. unfold_monad.
    by destruct (for_files self cd files2 documents w) as [[ys2 r] w2].
  - rewrite <- app_comm_cons, !for_files_cons.
    destruct (process_entry self cd e w) as [[new|ex] w1]; [| done].
    destruct (Z.of_nat (length (documents ++ new)) >=? batch_size self).
    + rewrite IH.
      destruct (for_files self cd files1 [] w1) as [[ys1 [pending|ex]] w2];
        [| done].
      by destruct (for_files self cd files2 pending w2) as [[ys2 r] w3].
    + apply IH.
Qed.

(** The first entry that raises ends the loop over a location: the batches
    yielded before it stand, the entries after it are not processed, and
    the documents pending at that point are not emitted. *)
Theorem first_error_ends_the_location (self : LocalFileConnector) (cd : Z)
    (before after : list entry) (e : entry) (documents pending : batch)
    (w w1 w2 : world) (ys : list batch) (ex : string) :
  for_files self cd before documents w = (ys, Ok pending, w1) →
  process_entry self cd e w1 = (Raise ex, w2) →
  for_files self cd (before ++ e :: after) documents w = (ys, Raise ex, w2).
Proof.
  intros Hb He. rewrite for_files_app, Hb.
  rewrite (for_files_cons self cd e after pending w1), He.
  by rewrite app_nil_r.
Qed.

End MoreLoops.

(** ** The run as a whole *)
Section WholeRun.

Context {IO : Type} {C : Collaborators IO}.

Lemma for_files_raises (self : LocalFileConnector) (cd : Z)
    (files : list entry) (documents : batch) (w w' : world)
    (ys : list batch) (ex : string) :
  for_files self cd files documents w = (ys, Raise ex, w') →
  files_documents self cd files w = (Raise ex, w').
Proof.
  revert documents w ys.
  induction files as [|e files IH]; intros documents w ys; [done |].
  rewrite for_files_cons. simpl files_documents. unfold_monad.
  destruct (process_entry self cd e w) as [[new|ex1] w1];
    [| by intros [= <- <- <-]].
  destruct (Z.of_nat (length (documents ++ new)) >=? batch_size self).
  - destruct (for_files self cd files [] w1) as [[ys1 r1] w2] eqn:Hf.
    intros [= <- -> <-]. by rewrite (IH _ _ _ Hf).
  - intros Hf. by rewrite (IH _ _ _ Hf).
Qed.

Lemma for_location_raises (self : LocalFileConnector) (file_path : string)
    (documents : batch) (w w' : world) (ys : list batch) (ex : string) :
  for_location self file_path documents w = (ys, Raise ex, w') →
  location_documents self file_path w = (Raise ex, w').
Proof.
  rewrite for_location_unfold.
  unfold location_documents, datetime_now. unfold_monad.
  destruct (_read_files_and_metadata file_path) as [files ending]. simpl.
  destruct (for_files self (utc_clock w) files documents (S w))
    as [[ys1 [pending1|ex1]] w1] eqn:Hf.
  - destruct (for_files_conserves _ _ _ _ _ _ _ _ Hf) as (new & -> & _).
    destruct ending; [| done]. by intros [= <- <- <-].
  - intros [= <- <- <-]. by rewrite (for_files_raises _ _ _ _ _ _ _ _ Hf).
Qed.

Lemma for_locations_raises (self : LocalFileConnector)
    (locations : list string) (documents : batch) (w w' : world)
    (ys : list batch) (ex : string) :
  for_locations self locations documents w = (ys, Raise ex, w') →
  locations_documents self locations w = (Raise ex, w').
Proof.
  revert documents w ys.
  induction locations as [|p locations IH]; intros documents w ys; [done |].
  simpl. unfold_monad.
  destruct (for_location self p documents w) as [[ys1 [docs1|ex1]] w1]
    eqn:Hl.
  - destruct (for_locations self locations docs1 w1) as [[ys2 r2] w2] eqn:Hr.
    intros [= <- -> <-].
    destruct (for_location_conserves _ _ _ _ _ _ _ Hl) as (new & -> & _).
    by rewrite (IH _ _ _ Hr).
  - intros [= <- <- <-]. by rewrite (for_location_raises _ _ _ _ _ _ _ Hl).
Qed.

(** A run ends as the unbatched processing of its entries ends: with the
    same exception at the same state of the clock, or normally with the
    same documents. *)
Lemma load_from_state_outcome (self : LocalFileConnector) (w w' : world)
    (ys : list batch) (r : result unit) :
  load_from_state self w = (ys, r, w') →
  produced_documents self w =
  (match r with Ok _ => Ok (concat ys) | Raise ex => Raise ex end, w').
Proof.
  destruct r as [[]|ex]; [apply load_from_state_conserves |].
  rewrite load_from_state_unfold. unfold produced_documents.
  destruct (for_locations self (file_locations self) [] w)
    as [[ys1 [[|d ds]|ex1]] w1] eqn:Hl; [done | done |].
  intros [= <- <- <-]. by apply (for_locations_raises _ _ _ _ _ _ _ Hl).
Qed.

Lemma process_entry_password (self1 self2 : LocalFileConnector) (cd : Z)
    (e : entry) :
  pdf_pass self1 = pdf_pass self2 →
  process_entry self1 cd e = process_entry self2 cd e.
Proof.
  intros Hp. destruct e as [[file_name file] metadata].
  unfold process_entry. by rewrite Hp.
Qed.

Lemma produced_documents_password (self1 self2 : LocalFileConnector)
    (w : world) :
  file_locations self1 = file_locations self2 →
  pdf_pass self1 = pdf_pass self2 →
  produced_documents self1 w = produced_documents self2 w.
Proof.
  intros Hl Hp. unfold produced_documents. rewrite Hl. clear Hl.
  assert (Hf : ∀ cd files w0,
            files_documents self1 cd files w0
            = files_documents self2 cd files w0).
  { intros cd files. induction files as [|e files IH]; intros w0; [done |].
    simpl. unfold_monad. rewrite (process_entry_password _ _ cd e Hp).
    destruct (process_entry self2 cd e w0) as [[new|ex] w1]; [| done].
    by rewrite IH. }
  assert (Hloc : ∀ p w0,
            location_documents self1 p w0 = location_documents self2 p w0).
  { intros p w0. unfold location_documents, datetime_now. unfold_monad.
    destruct (_read_files_and_metadata p) as [files ending].
    by rewrite Hf. }
  revert w. induction (file_locations self2) as [|p locations IH];
    intros w; [done |].
  simpl. unfold_monad. rewrite Hloc.
  destruct (location_documents self2 p w) as [[docs|ex] w1]; [| done].
  by rewrite IH.
Qed.

(** The batch size only cuts the output: two connectors over the same
    locations with the same password end the same way at the same state of
    the clock, whatever their batch sizes, and when they end normally they
    have emitted the same documents in the same order. *)
Theorem batch_size_only_cuts (self1 self2 : LocalFileConnector)
    (w w1 w2 : world) (ys1 ys2 : list batch) (r1 r2 : result unit) :
  file_locations self1 = file_locations self2 →
  pdf_pass self1 = pdf_pass self2 →
  load_from_state self1 w = (ys1, r1, w1) →
  load_from_state self2 w = (ys2, r2, w2) →
  r1 = r2 ∧ w1 = w2 ∧ (r1 = Ok () → concat ys1 = concat ys2).
Proof.
  intros Hl Hp Hrun1 Hrun2.
  apply load_from_state_outcome in Hrun1, Hrun2.
  rewrite (produced_documents_password _ _ w Hl Hp), Hrun2 in Hrun1.
  destruct r1 as [[]|ex1], r2 as [[]|ex2]; injection Hrun1 as ??;
    subst; done.
Qed.

(** A run that ends in an exception has only yielded batches of exactly
    [batch_size] documents: what was pending is not emitted. *)
Theorem failed_run_yields_full_batches (self : LocalFileConnector)
    (w w' : world) (ys : list batch) (ex : string) :
  1 ≤ batch_size self →
  load_from_state self w = (ys, Raise ex, w') →
  Forall (full self) ys.
Proof.
  intros HB. rewrite load_from_state_unfold.
  destruct (for_locations self (file_locations self) [] w)
    as [[ys1 r1] w1] eqn:Hl.
  assert (Hnil : Z.of_nat (length (@nil Document)) < batch_size self)
    by (simpl; lia).
  destruct (for_locations_sizes _ _ _ _ _ _ _ HB Hnil Hl) as [Hall _].
  destruct r1 as [[|d ds]|ex1]; [done | done |].
  by intros [= <- <- <-].
Qed.

(** With a batch size of zero or less every entry ends in a [yield]: the
    loop over a location yields as many batches as there are entries,
    empty ones included, and leaves nothing pending. *)
Theorem nonpositive_batch_size_yields_per_entry (self : LocalFileConnector)
    (cd : Z) (files : list entry) (documents pending : batch)
    (w w' : world) (ys : list batch) :
  batch_size self ≤ 0 →
  for_files self cd files documents w = (ys, Ok pending, w') →
  length ys = length files
  ∧ (files ≠ [] → pending = [])
  ∧ (∀ file_name file metadata w0,
       check_file_ext_is_valid (get_file_ext file_name) = false →
       for_files self cd [(file_name, file, metadata)] [] w0
       = ([[]], Ok [], w0)).
Proof.
  intros HB Hrun. split; [| split].
  - revert documents w ys Hrun.
    induction files as [|e files IH]; intros documents w ys.
    + by intros [= <- <- <-].
    + rewrite for_files_cons.
      destruct (process_entry self cd e w) as [[new|ex] w1]; [| done].
      destruct (Z.geb_spec (Z.of_nat (length (documents ++ new)))
                  (batch_size self)) as [_|Hlt]; [| lia].
      destruct (for_files self cd files [] w1) as [[ys1 r1] w2] eqn:Hf.
      intros [= <- -> <-]. simpl. f_equal. by apply (IH _ _ _ Hf).
  - revert documents w ys Hrun.
    induction files as [|e files IH]; intros documents w ys; [done |].
    rewrite for_files_cons.
    destruct (process_entry self cd e w) as [[new|ex] w1]; [| done].
    destruct (Z.geb_spec (Z.of_nat (length (documents ++ new)))
                (batch_size self)) as [_|Hlt]; [| lia].
    destruct (for_files self cd files [] w1) as [[ys1 r1] w2] eqn:Hf.
    intros [= <- -> <-] _. destruct files as [|e' files].
    + by injection Hf as <- <- <-.
    + by apply (IH _ _ _ Hf).
  - intros file_name file metadata w0 Hv.
    rewrite (for_files_cons self cd (file_name, file, metadata) [] [] w0).
    unfold process_entry, _process_file. cbv zeta. rewrite Hv. simpl.
    unfold_monad.
    destruct (Z.geb_spec (Z.of_nat 0) (batch_size self)) as [_|Hlt];
      [done | simpl in Hlt; lia].
Qed.

End WholeRun.

(** ** The script *)
Section ScriptProperties.

Context {IO : Type} {C : Collaborators IO}.

Lemma single_location_run (self : LocalFileConnector) (file_path : string)
    (w : world) :
  file_locations self = [file_path] →
  load_from_state self w =
  match for_location self file_path [] w with
  | (ys, Ok [], w') => (ys, Ok (), w')
  | (ys, Ok (d :: ds), w') => (ys ++ [d :: ds], Ok (), w')
  | (ys, Raise ex, w') => (ys, Raise ex, w')
  end.
Proof.
  intros Hl. rewrite load_from_state_unfold, Hl. simpl. unfold_monad.
  destruct (for_location self file_path [] w) as [[ys [[|d ds]|ex]] w'];
    by rewrite ?app_nil_r.
Qed.

(** With a batch size of at least one, the batch the script prints is not
    empty, holds at most [INDEX_BATCH_SIZE] documents, and every document
    in it is built from an entry of the [TEST_FILE] location, with the
    [PDF_PASSWORD] as password and the instant read at the start. *)
Theorem main_prints_first_batch (str_of_Path : string → string)
    (INDEX_BATCH_SIZE : Z) (environ : gmap string string) (w : world)
    (b : batch) :
  1 ≤ INDEX_BATCH_SIZE →
  main str_of_Path INDEX_BATCH_SIZE environ w = Ok b →
  ∃ test_file pdf_password,
    environ !! "TEST_FILE" = Some test_file
    ∧ environ !! "PDF_PASSWORD" = Some pdf_password
    ∧ 1 ≤ Z.of_nat (length b) ≤ INDEX_BATCH_SIZE
    ∧ ∀ d, d ∈ b →
        ∃ e, e ∈ (_read_files_and_metadata (str_of_Path test_file)).1
             ∧ built_from
                 (load_credentials
                    (LocalFileConnector_init [str_of_Path test_file]
                       INDEX_BATCH_SIZE)
                    {[ "pdf_password" := pdf_password ]})
                 (utc_clock w) e d.
Proof.
  intros HB. unfold main.
  destruct (environ !! "TEST_FILE") as [test_file|]; [| done].
  destruct (environ !! "PDF_PASSWORD") as [pdf_password|]; [| done].
  cbv zeta.
  set (self := load_credentials _ _). unfold next_batch.
  destruct (load_from_state self w) as [[ys r] w'] eqn:Hrun.
  destruct ys as [|b0 ys]; [by destruct r |]. intros [= ->].
  exists test_file, pdf_password. split; [done |]. split; [done |]. split.
  - destruct (load_from_state_shape self _ _ _ _ HB Hrun)
      as [Hall|(fulls & last & Hys & Hall & Hlast)].
    + apply Forall_cons in Hall as [Hb _]. unfold full in Hb.
      change (batch_size self) with INDEX_BATCH_SIZE in Hb. lia.
    + change (batch_size self) with INDEX_BATCH_SIZE in *.
      destruct fulls as [|f fulls]; simpl in Hys; injection Hys as -> _.
      * lia.
      * apply Forall_cons in Hall as [Hb _]. unfold full in Hb.
        change (batch_size self) with INDEX_BATCH_SIZE in Hb. lia.
  - intros d Hd.
    rewrite (single_location_run self (str_of_Path test_file)) in Hrun
      by done.
    destruct (for_location self (str_of_Path test_file) [] w)
      as [[ys1 r1] w1] eqn:Hl.
    assert (Hin : d ∈ concat ys1 ++ pending_of r1).
    { destruct r1 as [[|d0 ds0]|ex]; injection Hrun as Hys _ _.
      - subst ys1. simpl. rewrite app_nil_r. apply elem_of_app. by left.
      - destruct ys1 as [|y ys1]; simpl in Hys; injection Hys as -> _.
        + done.
        + simpl. apply elem_of_app. left. apply elem_of_app. by left.
      - subst ys1. simpl. rewrite app_nil_r. apply elem_of_app. by left. }
    destruct (for_location_origin _ _ _ _ _ _ _ d Hl Hin) as [Hnil|He];
      [by apply elem_of_nil in Hnil | exact He].
Qed.

(** When the [TEST_FILE] cannot be read, the script ends in the exception
    of the blob store; when it is read but is neither a zip nor of a
    listed extension, nothing is yielded and the script ends in
    [StopIteration]. *)
Theorem main_without_a_batch (str_of_Path : string → string)
    (INDEX_BATCH_SIZE : Z) (environ : gmap string string) (w : world)
    (test_file pdf_password : string) :
  environ !! "TEST_FILE" = Some test_file →
  environ !! "PDF_PASSWORD" = Some pdf_password →
  (∀ e, file_store_read_file (str_of_Path test_file) = Raise e →
        main str_of_Path INDEX_BATCH_SIZE environ w = Raise e)
  ∧ (∀ file_content,
       file_store_read_file (str_of_Path test_file) = Ok file_content →
       get_file_ext (str_of_Path test_file) ≠ ".zip" →
       get_file_ext (str_of_Path test_file) ∉ STANDALONE_EXTENSIONS →
       main str_of_Path INDEX_BATCH_SIZE environ w = Raise "StopIteration").
Proof.
  intros Ht Hp. unfold main. rewrite Ht, Hp. cbv zeta.
  set (self := load_credentials _ _). unfold next_batch.
  rewrite (single_location_run self (str_of_Path test_file)) by done.
  rewrite for_location_unfold. split.
  - intros e Hread.
    assert (Hs : _read_files_and_metadata (str_of_Path test_file)
                 = ([], Some e)).
    { unfold _read_files_and_metadata. cbv zeta. by rewrite Hread. }
    by rewrite Hs.
  - intros file_content Hread Hzip Hext.
    assert (Hs : _read_files_and_metadata (str_of_Path test_file)
                 = ([], None)).
    { unfold _read_files_and_metadata. cbv zeta. rewrite Hread.
      destruct (String.eqb_spec (get_file_ext (str_of_Path test_file)) ".zip");
        [done |].
      by rewrite bool_decide_eq_false_2. }
    by rewrite Hs.
Qed.

End ScriptProperties.

(** ** Credentials *)
Section Credentials.

Context {IO : Type} {C : Collaborators IO}.

(** After [load_credentials], a PDF entry is read with the [pdf_password]
    of the credentials, or with no password when they have none: if the
    reader raises, so does the entry, before the clock is read, and if it
    gives a text, the section of the document holds that text, stripped. *)
Theorem pdf_is_read_with_the_credentials (self : LocalFileConnector)
    (credentials : gmap string string) (cd : Z) (file_name : string)
    (file : IO) (metadata : dict) (w : world) :
  get_file_ext file_name = ".pdf" →
  check_file_ext_is_valid ".pdf" = true →
  match read_pdf_file file file_name (credentials !! "pdf_password") with
  | Raise e =>
      process_entry (load_credentials self credentials) cd
        (file_name, file, metadata) w = (Raise e, w)
  | Ok body =>
      ∀ (w' : world) (ds : batch) (d : Document) (sec : Models.Section_),
        process_entry (load_credentials self credentials) cd
          (file_name, file, metadata) w = (Ok ds, w') →
        d ∈ ds → sec ∈ Models.sections d →
        Models.text sec = Py.strip body
  end.
Proof.
  intros Hext Hv. unfold process_entry. cbn [load_credentials pdf_pass].
  assert (He : extract (get_file_ext file_name) file_name file
                 (credentials !! "pdf_password")
               = match read_pdf_file file file_name
                         (credentials !! "pdf_password") with
                 | Ok body => Ok (body, ∅)
                 | Raise e => Raise e
                 end).
  { rewrite Hext. unfold extract. simpl. unfold_monad.
    by destruct (read_pdf_file _ _ _). }
  destruct (read_pdf_file file file_name (credentials !! "pdf_password"))
    as [body|e].
  - intros w' ds d sec Hrun Hd Hsec.
    destruct (process_file_document _ _ _ _ _ _ _ _ Hrun Hd)
      as (raw & fmd & tu & po & so & _ & He' & _ & _ & _ & _ & ->).
    rewrite He in He'. injection He' as <- <-.
    cbn [the_document Models.sections] in Hsec.
    by apply list_elem_of_singleton in Hsec as ->.
  - rewrite process_file_accepted by (by rewrite Hext). by rewrite He.
Qed.

End Credentials.

(** ** The further properties on explicit inputs *)

Lemma one_document_per_accepted_entry_witness :
  ∃ d,
    _process_file (C := Sample.C0) "in/notes.txt" Sample.notes None None
      0%nat = (Ok [d], 1%nat)
    ∧ (∃ d', [d] = [d']) ∧ 1%nat = S 0.
Proof.
  eexists. split; [run |].
  exact (one_document_per_accepted_entry (C := Sample.C0) "in/notes.txt"
           Sample.notes None None 0%nat 1%nat _ ltac:(run)).
Defined.

Lemma tags_are_the_unreserved_metadata_witness :
  let caller : dict :=
    {[ "team" := PStr "docs"; "link" := PStr "http://y" ]} in
  ∃ d,
    _process_file (C := Sample.C0) "in/notes.txt" Sample.notes (Some caller)
      None 0%nat = (Ok [d], 1%nat)
    ∧ Models.metadata d !! "link" = None
    ∧ Models.metadata d !! "team" = Some (PStr "docs").
Proof.
  intros caller. eexists. split; [run |]. split.
  - apply (tags_are_the_unreserved_metadata (C := Sample.C0) "in/notes.txt"
             Sample.notes (Some caller) None 0%nat 1%nat _ _
             Sample.notes_body Sample.notes_header "link"
             ltac:(run) ltac:(run) (list_elem_of_here _ _)).
    do 2 apply list_elem_of_further. apply list_elem_of_here.
  - etrans;
      [apply (tags_are_the_unreserved_metadata (C := Sample.C0)
                "in/notes.txt" Sample.notes (Some caller) None 0%nat 1%nat
                _ _ Sample.notes_body Sample.notes_header "team"
                ltac:(run) ltac:(run) (list_elem_of_here _ _)) | run].
    intros Hin.
    repeat (apply elem_of_cons in Hin as [Hin|Hin]; [discriminate |]).
    by apply elem_of_nil in Hin.
Defined.

Lemma display_name_or_basename_witness :
  (∃ d,
     _process_file (C := Sample.C0) "in/notes.txt" Sample.notes
       (Some {[ "file_display_name" := PStr "My notes" ]}) None 0%nat
     = (Ok [d], 1%nat)
     ∧ Models.semantic_identifier d = PStr "My notes")
  ∧ (∃ d,
       _process_file (C := Sample.C0) "in/notes.txt" Sample.notes
         (Some {[ "file_display_name" := PStr "" ]}) None 0%nat
       = (Ok [d], 1%nat)
       ∧ ∃ name, Models.semantic_identifier d = PStr name
                 ∧ name = "notes.txt" ∧ has_char "/" name = false).
Proof.
  split.
  - eexists. split; [run |].
    apply (display_name_or_basename (C := Sample.C0) "in/notes.txt"
             Sample.notes (Some {[ "file_display_name" := PStr "My notes" ]})
             None 0%nat 1%nat _ _ Sample.notes_body Sample.notes_header
             ltac:(run) ltac:(run) (list_elem_of_here _ _)).
    run.
  - eexists. split; [run |].
    apply (display_name_or_basename (C := Sample.C0) "in/notes.txt"
             Sample.notes (Some {[ "file_display_name" := PStr "" ]})
             None 0%nat 1%nat _ _ Sample.notes_body Sample.notes_header
             ltac:(run) ltac:(run) (list_elem_of_here _ _)).
    run.
Defined.

Lemma time_updated_resolution_witness :
  (∃ d,
     _process_file (C := Sample.C0) "in/a.txt" (Sample.TextFile "text" ∅)
       None None 4%nat = (Ok [d], 5%nat)
     ∧ Models.doc_updated_at d = PTime 1004)
  ∧ (∃ d,
       _process_file (C := Sample.C0) "in/a.txt" (Sample.TextFile "text" ∅)
         (Some {[ "time_updated" := PStr "42" ]}) None 4%nat
       = (Ok [d], 5%nat)
       ∧ ∃ t, time_str_to_utc (Collaborators := Sample.C0) (PStr "42") = Ok t
              ∧ Models.doc_updated_at d = PTime t).
Proof.
  split.
  - eexists. split; [run |].
    exact (time_updated_resolution (C := Sample.C0) "in/a.txt"
             (Sample.TextFile "text" ∅) None None 4%nat 5%nat _ _ "text" ∅
             ltac:(run) ltac:(run) (list_elem_of_here _ _) ltac:(run)).
  - eexists. split; [run |].
    exact (time_updated_resolution (C := Sample.C0) "in/a.txt"
             (Sample.TextFile "text" ∅)
             (Some {[ "time_updated" := PStr "42" ]}) None 4%nat 5%nat _ _
             "text" ∅
             ltac:(run) ltac:(run) (list_elem_of_here _ _) ltac:(run)).
Defined.

Lemma bad_time_updated_raises_witness :
  _process_file (C := Cases.C1) "in/undated.txt" Cases.undated
    (Some {[ "doc_updated_at" := PStr "1700" ]}) None 0%nat
  = (Raise "InvalidTimestamp", 1%nat).
Proof.
  apply (bad_time_updated_raises (C := Cases.C1) "in/undated.txt"
           Cases.undated (Some {[ "doc_updated_at" := PStr "1700" ]}) None
           0%nat "text" {[ "time_updated" := PStr "soon" ]} "soon"
           "InvalidTimestamp");
    run.
Defined.

Lemma bad_doc_updated_at_raises_witness :
  _process_file (C := Sample.C0) "in/a.txt" (Sample.TextFile "text" ∅)
    (Some {[ "doc_updated_at" := PStr "later" ]}) None 0%nat
  = (Raise "InvalidTimestamp", 1%nat).
Proof.
  apply (bad_doc_updated_at_raises (C := Sample.C0) "in/a.txt"
           (Sample.TextFile "text" ∅)
           (Some {[ "doc_updated_at" := PStr "later" ]}) None 0%nat
           "text" ∅ (PStr "later") "InvalidTimestamp");
    [run | run | intros s; vm_compute; discriminate | run | run | run].
Defined.

Lemma extraction_error_propagates_witness :
  _process_file (C := Cases.C1) "in/broken.pdf" Sample.Garbage None
    (Some "secret") 3%nat
  = (Raise "ParseError", 3%nat).
Proof.
  apply (extraction_error_propagates (C := Cases.C1) "in/broken.pdf"
           Sample.Garbage None (Some "secret") 3%nat "ParseError");
    run.
Defined.

Lemma password_only_for_pdf_witness :
  _process_file (C := Sample.C0) "in/notes.txt" Sample.notes None None 0%nat
  = _process_file (C := Sample.C0) "in/notes.txt" Sample.notes None
      (Some "secret") 0%nat.
Proof.
  apply (password_only_for_pdf (C := Sample.C0) "in/notes.txt" Sample.notes
           None None (Some "secret") 0%nat).
  vm_compute. discriminate.
Defined.

Lemma string_owner_is_split_per_character_witness :
  ∃ d,
    _process_file (C := Sample.C0) "in/notes.txt" Sample.notes
      (Some {[ "primary_owners" := PStr "al" ]}) None 0%nat
    = (Ok [d], 1%nat)
    ∧ Models.primary_owners d
      = Some [ {| Models.display_name := PStr "a" |};
               {| Models.display_name := PStr "l" |} ].
Proof.
  eexists. split; [run |].
  apply (string_owner_is_split_per_character (C := Sample.C0)
           "in/notes.txt" Sample.notes
           (Some {[ "primary_owners" := PStr "al" ]}) None 0%nat 1%nat _ _
           Sample.notes_body Sample.notes_header "al"
           ltac:(run) ltac:(run) (list_elem_of_here _ _) ltac:(discriminate)).
  run.
Defined.

Lemma non_iterable_owner_raises_witness :
  _process_file (C := Sample.C0) "in/a.txt" (Sample.TextFile "text" ∅)
    (Some {[ "primary_owners" := PInt 7 ]}) None 0%nat
  = (Raise "TypeError", 1%nat).
Proof.
  apply (non_iterable_owner_raises (C := Sample.C0) "in/a.txt"
           (Sample.TextFile "text" ∅)
           (Some {[ "primary_owners" := PInt 7 ]}) None 0%nat 1%nat
           "text" ∅ (PTime 1000) (PInt 7));
    run.
Defined.

Lemma exactly_one_section_witness :
  ∃ d,
    _process_file (C := Sample.C0) "in/blank.txt" Cases.blank
      (Some {[ "link" := PStr "http://x" ]}) None 0%nat = (Ok [d], 1%nat)
    ∧ ∃ sec,
        Models.sections d = [sec]
        ∧ Models.link sec = PStr "http://x"
        ∧ Models.text sec = ""
        ∧ (all_space (LF +:+ "  " +:+ LF) = true → Models.text sec = "").
Proof.
  eexists. split; [run |].
  exact (exactly_one_section (C := Sample.C0) "in/blank.txt" Cases.blank
           (Some {[ "link" := PStr "http://x" ]}) None 0%nat 1%nat _ _
           (LF +:+ "  " +:+ LF) ∅
           ltac:(run) ltac:(run) (list_elem_of_here _ _)).
Defined.

Lemma epub_ignores_other_members_witness :
  epub_text (C := Sample.C0)
    ([("ch1.xhtml", Sample.TextFile "One" ∅)]
       ++ ("cover.png", Sample.Garbage)
       :: [("ch2.html", Sample.TextFile "Two" ∅)])
  = epub_text (C := Sample.C0)
      ([("ch1.xhtml", Sample.TextFile "One" ∅)]
         ++ [("ch2.html", Sample.TextFile "Two" ∅)])
  ∧ extract (C := Sample.C0) ".epub" "in/book.epub" Cases.book None
    = Ok ("One" +:+ LFLF +:+ "Two", ∅).
Proof.
  split; [| run].
  apply (epub_ignores_other_members (C := Sample.C0)).
  intros stem. split; intros H.
  - assert (He : Py.endswith "cover.png" ".xhtml" = true)
      by (apply endswith_spec; by exists stem).
    vm_compute in He. discriminate.
  - assert (He : Py.endswith "cover.png" ".html" = true)
      by (apply endswith_spec; by exists stem).
    vm_compute in He. discriminate.
Defined.

Lemma standalone_file_is_one_entry_witness :
  _read_files_and_metadata (C := Sample.C0) "in/notes.txt"
    = ([("in/notes.txt", Sample.notes, ∅)], None)
  ∧ for_location (C := Sample.C0) Sample.connector "in/notes.txt" [] 0%nat
    = for_files (C := Sample.C0) Sample.connector 1000
        [("in/notes.txt", Sample.notes, ∅)] [] 1%nat.
Proof.
  apply (standalone_file_is_one_entry (C := Sample.C0) Sample.connector
           "in/notes.txt" Sample.notes [] 0%nat);
    [run | vm_compute; discriminate | vm_compute; apply list_elem_of_here].
Defined.

Lemma unreadable_location_aborts_witness :
  ∃ d,
    _read_files_and_metadata (C := Sample.C0) "in/missing.txt"
      = ([], Some "NotFound")
    ∧ for_location (C := Sample.C0) Sample.connector "in/missing.txt" [d]
        0%nat = ([], Raise "NotFound", 1%nat)
    ∧ for_locations (C := Sample.C0) Sample.connector
        ["in/missing.txt"; "in/notes.txt"] [d] 0%nat
      = ([], Raise "NotFound", 1%nat).
Proof.
  exists (the_document "in/notes.txt" "body" ∅ (PTime 0) None None).
  apply (unreadable_location_aborts (C := Sample.C0) Sample.connector
           "in/missing.txt" "NotFound").
  run.
Defined.

Lemma zip_entries_are_resolved_witness :
  let items : list (string * Sample.File * dict) :=
    [ ("one.txt", Sample.TextFile " first " ∅, ∅);
      ("tool.exe", Sample.Garbage, ∅);
      ("two.md", Sample.TextFile "second" {[ "topic" := PStr "zips" ]},
        {[ "link" := PStr "http://x" ]}) ] in
  (_read_files_and_metadata (C := Sample.C0) "in/pack.zip").1
    = [ ("in/one.txt", Sample.TextFile " first " ∅, ∅);
        ("in/tool.exe", Sample.Garbage, ∅);
        ("in/two.md", Sample.TextFile "second" {[ "topic" := PStr "zips" ]},
          {[ "link" := PStr "http://x" ]}) ]
  ∧ (_read_files_and_metadata (C := Cases.C1) "pack.zip").2 = None
  ∧ length (_read_files_and_metadata (C := Cases.C1) "pack.zip").1
    = length items
  ∧ ∀ (i : nat) (inner : string) (file : Sample.File) (metadata : dict),
      items !! i = Some (inner, file, metadata) →
      ∃ resolved,
        (_read_files_and_metadata (C := Cases.C1) "pack.zip").1 !! i
          = Some (resolved, file, metadata)
        ∧ resolved = OsPath.join (OsPath.dirname "pack.zip") inner
        ∧ OsPath.basename resolved = OsPath.basename inner
        ∧ (has_char "/" "pack.zip" = false → resolved = inner).
Proof.
  intros items. split; [run |].
  apply (zip_entries_are_resolved (C := Cases.C1) "pack.zip" Sample.pack
           items None);
    run.
Defined.

Lemma caller_time_updated_is_kept_witness :
  process_entry (C := Sample.C0) Sample.connector 1002
    ("in/notes.txt", Sample.notes, {[ "time_updated" := PTime 5 ]})
  = _process_file (C := Sample.C0) "in/notes.txt" Sample.notes
      (Some {[ "time_updated" := PTime 5 ]}) None.
Proof.
  apply (caller_time_updated_is_kept (C := Sample.C0) Sample.connector 1002
           "in/notes.txt" Sample.notes {[ "time_updated" := PTime 5 ]}
           (PTime 5)).
  run.
Defined.

Lemma first_error_ends_the_location_witness :
  ∃ ys w',
    for_files (C := Cases.C1) Cases.failing 1000
      ([ ("in/notes.txt", Sample.notes, ∅);
         ("in/a.txt", Sample.TextFile "a" ∅, ∅);
         ("in/b.txt", Sample.TextFile "b" ∅, ∅) ]
         ++ ("in/broken.pdf", Sample.Garbage, ∅)
         :: [ ("in/c.txt", Sample.TextFile "c" ∅, ∅) ])
      [] 1%nat
    = (ys, Raise "ParseError", w')
    ∧ (length <$> ys) = [2%nat].
Proof.
  eexists. eexists. split.
  - eapply (first_error_ends_the_location (C := Cases.C1) Cases.failing 1000
              [ ("in/notes.txt", Sample.notes, ∅);
                ("in/a.txt", Sample.TextFile "a" ∅, ∅);
                ("in/b.txt", Sample.TextFile "b" ∅, ∅) ]
              [ ("in/c.txt", Sample.TextFile "c" ∅, ∅) ]
              ("in/broken.pdf", Sample.Garbage, ∅) []);
      [run | run].
  - reflexivity.
Defined.

Lemma batch_size_only_cuts_witness :
  ∃ ys1 ys2 w1 w2,
    load_from_state (C := Sample.C0) Sample.connector 0%nat
      = (ys1, Ok (), w1)
    ∧ load_from_state (C := Sample.C0)
        (LocalFileConnector_init (file_locations Sample.connector) 3) 0%nat
      = (ys2, Ok (), w2)
    ∧ (length <$> ys1) = [2; 2; 1]%nat
    ∧ (length <$> ys2) = [3; 2]%nat
    ∧ Ok () = Ok () ∧ w1 = w2 ∧ (Ok () = Ok () → concat ys1 = concat ys2).
Proof.
  do 4 eexists. split; [run |]. split; [run |].
  split; [reflexivity |]. split; [reflexivity |].
  apply (batch_size_only_cuts (C := Sample.C0) Sample.connector
           (LocalFileConnector_init (file_locations Sample.connector) 3)
           0%nat);
    [reflexivity | reflexivity | run | run].
Defined.

Lemma failed_run_yields_full_batches_witness :
  ∃ ys w',
    load_from_state (C := Cases.C1) Cases.failing 0%nat
      = (ys, Raise "ParseError", w')
    ∧ (length <$> ys) = [2%nat]
    ∧ Forall (full Cases.failing) ys.
Proof.
  do 2 eexists. split; [run |]. split; [reflexivity |].
  eapply (failed_run_yields_full_batches (C := Cases.C1) Cases.failing 0%nat
            _ _ "ParseError");
    [simpl; lia | run].
Defined.

Lemma nonpositive_batch_size_yields_per_entry_witness :
  ∃ ys w',
    for_files (C := Sample.C0)
      (LocalFileConnector_init ["in/pack.zip"] 0) 1000
      (_read_files_and_metadata (C := Sample.C0) "in/pack.zip").1 [] 1%nat
    = (ys, Ok [], w')
    ∧ (length <$> ys) = [1; 0; 1]%nat
    ∧ length ys
      = length (_read_files_and_metadata (C := Sample.C0) "in/pack.zip").1.
Proof.
  do 2 eexists. split; [run |]. split; [reflexivity |].
  eapply (nonpositive_batch_size_yields_per_entry (C := Sample.C0)
            (LocalFileConnector_init ["in/pack.zip"] 0) 1000
            (_read_files_and_metadata (C := Sample.C0) "in/pack.zip").1
            [] [] 1%nat);
    [simpl; lia | run].
Defined.

Lemma main_prints_first_batch_witness :
  ∃ b,
    main (C := Sample.C0) id 2 Cases.environ 0%nat = Ok b
    ∧ (Models.id <$> b)
      = ["FILE_CONNECTOR__in/one.txt"; "FILE_CONNECTOR__in/two.md"]
    ∧ ∃ test_file pdf_password,
        Cases.environ !! "TEST_FILE" = Some test_file
        ∧ Cases.environ !! "PDF_PASSWORD" = Some pdf_password
        ∧ 1 ≤ Z.of_nat (length b) ≤ 2
        ∧ ∀ d, d ∈ b →
            ∃ e, e ∈ (_read_files_and_metadata (C := Sample.C0)
                        (id test_file)).1
                 ∧ built_from (C := Sample.C0)
                     (load_credentials
                        (LocalFileConnector_init [id test_file] 2)
                        {[ "pdf_password" := pdf_password ]})
                     (utc_clock (Collaborators := Sample.C0) 0%nat) e d.
Proof.
  eexists. split; [run |]. split; [reflexivity |].
  apply (main_prints_first_batch (C := Sample.C0) id 2 Cases.environ 0%nat);
    [lia | run].
Defined.

Lemma main_without_a_batch_witness :
  main (C := Sample.C0) id 2
    Cases.environ_missing 0%nat
  = Raise "NotFound"
  ∧ main (C := Sample.C0) id 2
      Cases.environ_unsupported 0%nat
    = Raise "StopIteration".
Proof.
  split.
  - apply (main_without_a_batch (C := Sample.C0) id 2
             Cases.environ_missing
             0%nat "in/missing.txt" "secret" ltac:(run) ltac:(run)).
    run.
  - apply (proj2 (main_without_a_batch (C := Sample.C0) id 2
             Cases.environ_unsupported
             0%nat "in/tool.exe" "secret" ltac:(run) ltac:(run))
             Sample.Garbage);
      [run | vm_compute; discriminate |].
    vm_compute. intros Hin.
    repeat (apply elem_of_cons in Hin as [Hin|Hin]; [discriminate |]).
    by apply elem_of_nil in Hin.
Defined.

Lemma pdf_is_read_with_the_credentials_witness :
  ∃ d sec,
    process_entry (C := Sample.C0)
      (load_credentials Sample.connector {[ "pdf_password" := "secret" ]})
      1000 ("in/report.pdf", Cases.report, ∅) 1%nat = (Ok [d], 2%nat)
    ∧ Models.sections d = [sec]
    ∧ Models.text sec = "Annual report".
Proof.
  do 2 eexists. split; [run |]. split; [reflexivity |].
  eapply (pdf_is_read_with_the_credentials (C := Sample.C0) Sample.connector
            {[ "pdf_password" := "secret" ]} 1000 "in/report.pdf"
            Cases.report ∅ 1%nat ltac:(run) ltac:(run));
    [run | apply list_elem_of_here | apply list_elem_of_here].
Defined.
